(** * RouterOS provider client bootstrap: a shallow embedding of
    [routeros/mikrotik_client.go] and the properties of its address
    helpers, escaping routine, version probe and client constructor. *)

From Stdlib Require Import ZArith NArith Lia Bool List.
From Stdlib Require Import Strings.Ascii Strings.String Strings.Byte.
From stdpp Require Import base option list strings gmap.
Import ListNotations.

Local Open Scope stdpp_scope.

(** ** Go's [strings] package, on Go strings as byte strings *)

Module strings.

(** [strings.HasPrefix(s, prefix)] *)
Definition HasPrefix (s prefix : string) : bool :=
  (String.length prefix <=? String.length s)%nat
  && String.eqb (String.substring 0 (String.length prefix) s) prefix.

(** [strings.HasSuffix(s, suffix)] *)
Definition HasSuffix (s suffix : string) : bool :=
  (String.length suffix <=? String.length s)%nat
  && String.eqb
       (String.substring (String.length s - String.length suffix)
          (String.length suffix) s)
       suffix.

(** [strings.TrimSuffix(s, suffix)]: [s] without the trailing [suffix],
    or [s] itself when it does not end in [suffix]. *)
Definition TrimSuffix (s suffix : string) : string :=
  if HasSuffix s suffix
  then String.substring 0 (String.length s - String.length suffix) s
  else s.

(** [strings.Join(elems, sep)] *)
Definition Join (elems : list string) (sep : string) : string :=
  String.concat sep elems.

(** [strings.LastIndexByte(s, c)], with [None] for Go's [-1]. *)
Fixpoint LastIndexByte (s : string) (c : ascii) : option nat :=
  match s with
  | EmptyString => None
  | String a t =>
      match LastIndexByte t c with
      | Some i => Some (S i)
      | None => if Ascii.eqb a c then Some 0%nat else None
      end
  end.

(** [strings.IndexByte(s, c)], with [None] for Go's [-1]. *)
Fixpoint IndexByte (s : string) (c : ascii) : option nat :=
  match s with
  | EmptyString => None
  | String a t =>
      if Ascii.eqb a c then Some 0%nat
      else match IndexByte t c with
           | Some i => Some (S i)
           | None => None
           end
  end.

(** [strings.Cut(s, sep)] for a separator of one byte. *)
Definition Cut (s : string) (sep : ascii) : string * string * bool :=
  match IndexByte s sep with
  | Some i =>
      (String.substring 0 i s,
       String.substring (S i) (String.length s - S i) s, true)
  | None => (s, "", false)
  end.

(** [strings.Count(s, sep)] for a separator of one byte. *)
Fixpoint Count (s : string) (sep : ascii) : nat :=
  match s with
  | EmptyString => 0
  | String a t => (if Ascii.eqb a sep then 1 else 0) + Count t sep
  end.

Definition lower (c : ascii) : ascii :=
  let n := nat_of_ascii c in
  if (65 <=? n)%nat && (n <=? 90)%nat then ascii_of_nat (n + 32) else c.

(** [strings.ToLower(s)] on ASCII text. *)
Fixpoint ToLower (s : string) : string :=
  match s with
  | EmptyString => EmptyString
  | String a t => String (lower a) (ToLower t)
  end.

End strings.

(** ** Addressable paths *)

(** [type URL struct { Path string; Query []string }] *)
Record URL := mkURL { Path : string; Query : list string }.

(** [func (u *URL) GetApiCmd() []string] *)
Definition GetApiCmd (u : URL) : list string :=
  let res := [Path u] in
  res ++ Query u.

(** [func (u *URL) GetRestURL() string] *)
Definition GetRestURL (u : URL) : string :=
  let q := strings.Join (Query u) "&" in
  let q :=
    match q with
    | String c _ => if negb (Ascii.eqb c "?"%char) then "?" +:+ q else q
    | EmptyString => q
    end in
  Path u +:+ q.

(** ** Control-character escaping *)

Module hex.

(** [const hextable = "0123456789abcdef"] *)
Definition hextable : list byte := String.list_byte_of_string "0123456789abcdef".

Definition hextable_at (n : N) : byte := nth (N.to_nat n) hextable x00.

(** [hex.Encode(dst, src)]: writes two digits per source byte into
    [dst], in place; [j] is the index of the next digit. Go panics when
    [dst] is too short, which an update out of range here passes over;
    the one call below hands in two bytes for one source byte. *)
Fixpoint Encode_from (j : nat) (dst src : list byte) : list byte :=
  match src with
  | [] => dst
  | v :: src' =>
      let dst := <[j := hextable_at (N.shiftr (Byte.to_N v) 4)]> dst in
      let dst := <[S j := hextable_at (N.land (Byte.to_N v) 15)]> dst in
      Encode_from (j + 2) dst src'
  end.

Definition Encode (dst src : list byte) : list byte := Encode_from 0 dst src.

End hex.

(** The template [[]byte(`\u0000`)]. *)
Definition escape_template : list byte := String.list_byte_of_string "\u0000".

(** One iteration of the [range] loop of [EscapeChars]: [res] is the
    output built so far, [ch] is [data[i]]. The slice
    [res[len(res)-2:]] shares its storage with [res], so encoding into
    it rewrites the last two bytes of [res]. *)
Definition EscapeChars_step (res : list byte) (ch : byte) : list byte :=
  if (Byte.to_N ch <? 32)%N then
    let res := res ++ escape_template in
    let k := (length res - 2)%nat in
    take k res ++ hex.Encode (drop k res) [ch]
  else
    res ++ [ch].

(** [func EscapeChars(data []byte) []byte] *)
Definition EscapeChars (data : list byte) : list byte :=
  fold_left EscapeChars_step data [].

(** ** Diagnostics, as [terraform-plugin-sdk/v2/diag] builds them *)

(** A Go [error] is represented by the text of its [Error()] method. *)
Definition error := string.

Module diag.

Inductive Severity := Error | Warning.

Record Diagnostic := mkDiagnostic {
  Severity_of : Severity;
  Summary : string;
  Detail : string
}.

(** [type Diagnostics []Diagnostic]; Go's [nil] is the empty list. *)
Definition Diagnostics := list Diagnostic.

(** [diag.FromErr(err)] for a non-nil [err]. *)
Definition FromErr (err : error) : Diagnostics :=
  [ {| Severity_of := Error; Summary := err; Detail := "" |} ].

(** [diag.Errorf(format, a...)], given the formatted message. *)
Definition Errorf (msg : string) : Diagnostics :=
  [ {| Severity_of := Error; Summary := msg; Detail := "" |} ].

End diag.

(** ** Regular expressions, as far as the version pattern needs them *)

Module regexp.

(** The operators of [regexp/syntax] that the pattern uses. *)
Inductive syntax :=
| EmptyMatch
| BeginText                          (* ^   *)
| Literal (c : ascii)                (* \.  *)
| CharClass (p : ascii -> bool)      (* \d  *)
| Concat (r1 r2 : syntax)
| Quest (r : syntax)                 (* r?  greedy *)
| Plus (r : syntax)                  (* r+  greedy *)
| Capture (r : syntax).              (* (r) *)

(** [r{n}] and [r{min,max}] (greedy), expanded the way the library's
    simplifier expands counted repetition: [min] copies followed by
    nested optional copies. *)
Fixpoint copies (n : nat) (r : syntax) : syntax :=
  match n with
  | O => EmptyMatch
  | S n' => Concat r (copies n' r)
  end.

Fixpoint optional (n : nat) (r : syntax) : syntax :=
  match n with
  | O => EmptyMatch
  | S n' => Quest (Concat r (optional n' r))
  end.

Definition Repeat (min max : nat) (r : syntax) : syntax :=
  Concat (copies min r) (optional (max - min) r).

(** [\d]: the ASCII digits. *)
Definition is_digit (c : ascii) : bool :=
  let n := nat_of_ascii c in (48 <=? n)%nat && (n <=? 57)%nat.

(** Greedy iteration of [step], one or more times. Every further
    iteration must consume input, so [fuel] above the length of the
    remaining input is never used up. *)
Fixpoint plus_loop (step : string -> list string) (fuel : nat) (s : string)
  : list string :=
  match fuel with
  | O => []
  | S n =>
      s' ← step s;
      (if (String.length s' <? String.length s)%nat
       then plus_loop step n s' else [])
      ++ [s']
  end.

(** [run t r s]: the ways [r] matches a prefix of [s], where [s] is a
    suffix of the whole text [t]; each way is given by the input that
    remains after it, and the ways are listed in the order of
    preference of a leftmost-first (backtracking) search. *)
Fixpoint run (t : string) (r : syntax) (s : string) : list string :=
  match r with
  | EmptyMatch => [s]
  | BeginText =>
      if (String.length s =? String.length t)%nat then [s] else []
  | Literal c =>
      match s with
      | String a s' => if Ascii.eqb a c then [s'] else []
      | EmptyString => []
      end
  | CharClass p =>
      match s with
      | String a s' => if p a then [s'] else []
      | EmptyString => []
      end
  | Concat r1 r2 => s' ← run t r1 s; run t r2 s'
  | Quest r => run t r s ++ [s]
  | Plus r => plus_loop (run t r) (S (String.length s)) s
  | Capture r => run t r s
  end.

(** The leftmost start position with a match, and the preferred match
    there: [(s, e)] where the match is [s] without its suffix [e]. *)
Fixpoint search (t : string) (r : syntax) (s : string)
  : option (string * string) :=
  match run t r s with
  | e :: _ => Some (s, e)
  | [] =>
      match s with
      | String _ s' => search t r s'
      | EmptyString => None
      end
  end.

(** [re.MatchString(s)] *)
Definition MatchString (re : syntax) (s : string) : bool :=
  match search s re s with Some _ => true | None => false end.

(** [re.FindString(s)]: the text of the leftmost match, or the empty
    string when there is none. *)
Definition FindString (re : syntax) (s : string) : string :=
  match search s re s with
  | Some (b, e) => String.substring 0 (String.length b - String.length e) b
  | None => ""
  end.

(** What a pattern can match, declaratively. [BeginText] is an
    assertion and matches the empty word. *)
Inductive matches : syntax -> string -> Prop :=
| m_empty : matches EmptyMatch ""
| m_begin : matches BeginText ""
| m_literal c : matches (Literal c) (String c "")
| m_class p c : p c = true -> matches (CharClass p) (String c "")
| m_concat r1 r2 w1 w2 :
    matches r1 w1 -> matches r2 w2 -> matches (Concat r1 r2) (w1 +:+ w2)
| m_quest_one r w : matches r w -> matches (Quest r) w
| m_quest_none r : matches (Quest r) ""
| m_plus_one r w : matches r w -> matches (Plus r) w
| m_plus_more r w1 w2 :
    matches r w1 -> matches (Plus r) w2 -> matches (Plus r) (w1 +:+ w2)
| m_capture r w : matches r w -> matches (Capture r) w.

End regexp.

(** [regexp.MustCompile(`^(\d+\.){1,2}\d+`)] *)
Definition version_re : regexp.syntax :=
  let d := regexp.CharClass regexp.is_digit in
  regexp.Concat regexp.BeginText
    (regexp.Concat
       (regexp.Repeat 1 2
          (regexp.Capture
             (regexp.Concat (regexp.Plus d) (regexp.Literal "."%char))))
       (regexp.Plus d)).

(** A string of ASCII digits, and a non-empty one. *)
Fixpoint all_digits (s : string) : bool :=
  match s with
  | EmptyString => true
  | String c s' => regexp.is_digit c && all_digits s'
  end.

Definition is_number (s : string) : bool :=
  negb (String.eqb s "") && all_digits s.

(** The shape [X.Y] or [X.Y.Z] of a normalised version. *)
Definition version_shape (v : string) : Prop :=
  (exists x y, is_number x = true /\ is_number y = true /\
               v = x +:+ "." +:+ y)
  \/ (exists x y z, is_number x = true /\ is_number y = true /\
                    is_number z = true /\
                    v = x +:+ "." +:+ y +:+ "." +:+ z).

(** ** The parts of [net/url], [crypto/tls] and [net/http] the client uses *)

Module url.

Record Userinfo := mkUserinfo {
  username : string;
  password : string;
  passwordSet : bool
}.

(** [type URL struct] of [net/url]. *)
Record URL := mkURL {
  Scheme : string;
  Opaque : string;
  User : option Userinfo;
  Host : string;
  Path : string;
  RawPath : string;
  OmitHost : bool;
  ForceQuery : bool;
  RawQuery : string;
  Fragment : string;
  RawFragment : string
}.

Definition set_Scheme (u : URL) (v : string) : URL :=
  mkURL v (Opaque u) (User u) (Host u) (Path u) (RawPath u) (OmitHost u)
    (ForceQuery u) (RawQuery u) (Fragment u) (RawFragment u).

Definition set_Host (u : URL) (v : string) : URL :=
  mkURL (Scheme u) (Opaque u) (User u) v (Path u) (RawPath u) (OmitHost u)
    (ForceQuery u) (RawQuery u) (Fragment u) (RawFragment u).

Definition set_Path (u : URL) (v : string) : URL :=
  mkURL (Scheme u) (Opaque u) (User u) (Host u) v (RawPath u) (OmitHost u)
    (ForceQuery u) (RawQuery u) (Fragment u) (RawFragment u).

Fixpoint all_decimal (s : string) : bool :=
  match s with
  | EmptyString => true
  | String b s' =>
      negb ((nat_of_ascii b <? 48)%nat || (57 <? nat_of_ascii b)%nat)
      && all_decimal s'
  end.

(** [validOptionalPort(port)]: [port] is empty, or a colon followed by
    decimal digits only. *)
Definition validOptionalPort (port : string) : bool :=
  match port with
  | EmptyString => true
  | String c rest =>
      if negb (Ascii.eqb c ":"%char) then false else all_decimal rest
  end.

(** [splitHostPort(hostPort)] *)
Definition splitHostPort (hostPort : string) : string * string :=
  let host := hostPort in
  let '(host, port) :=
    match strings.LastIndexByte host ":"%char with
    | Some colon =>
        if validOptionalPort
             (String.substring colon (String.length host - colon) host)
        then (String.substring 0 colon host,
              String.substring (S colon) (String.length host - S colon) host)
        else (host, "")
    | None => (host, "")
    end in
  let host :=
    if strings.HasPrefix host "[" && strings.HasSuffix host "]"
    then String.substring 1 (String.length host - 2) host
    else host in
  (host, port).

(** [func (u *URL) Port() string] *)
Definition Port (u : URL) : string := snd (splitHostPort (Host u)).

End url.

Module x509.
(** A certificate pool, as the PEM data appended to it so far. *)
Definition CertPool := list (list byte).
Definition NewCertPool : CertPool := [].
Definition AppendCertsFromPEM (p : CertPool) (pem : list byte) : CertPool :=
  p ++ [pem].
End x509.

Module tls.
Record Config := mkConfig {
  InsecureSkipVerify : bool;
  RootCAs : option x509.CertPool
}.
End tls.

Module http.
Record Transport := mkTransport { TLSClientConfig : tls.Config }.
Record Client := mkClient { Timeout : Z; Transport_of : Transport }.
End http.

Module time.
(** [time.Duration] is an [int64] count of nanoseconds. *)
Definition wrap_int64 (z : Z) : Z := (z + 2 ^ 63) mod 2 ^ 64 - 2 ^ 63.
Definition Second : Z := 1000000000.
Definition mul (a b : Z) : Z := wrap_int64 (a * b).
End time.

(** ** Clients

    [TransportType], [ApiClient] and [RestClient] are declared in other
    files of the package; they appear here with the values and fields
    that the constructor uses. *)

Inductive TransportType := TransportAPI | TransportREST.

(** [type ExtraParams struct] *)
Record ExtraParams := mkExtraParams { SuppressSysODelWarn : bool }.

(** A session of the binary protocol, as the arguments it was dialled
    with ([routeros.Dial] without, [routeros.DialTLS] with a TLS
    configuration). *)
Record Session := mkSession {
  address : string;
  login : string;
  secret : string;
  session_tls : option tls.Config
}.

Record ApiClient := mkApiClient {
  api_HostURL : string;
  api_Username : string;
  api_Password : string;
  api_Transport : TransportType;
  api_extra : ExtraParams;
  api_Client : option Session
}.

Record RestClient := mkRestClient {
  rest_HostURL : string;
  rest_Username : string;
  rest_Password : string;
  rest_Transport : TransportType;
  rest_extra : ExtraParams;
  rest_Client : option http.Client
}.

(** The two implementations of the [Client] interface. *)
Inductive Client :=
| Api (c : ApiClient)
| Rest (c : RestClient).

Definition GetTransport (c : Client) : TransportType :=
  match c with
  | Api a => api_Transport a
  | Rest r => rest_Transport r
  end.

Definition GetExtraParams (c : Client) : ExtraParams :=
  match c with
  | Api a => api_extra a
  | Rest r => rest_extra r
  end.

(** [type MikrotikItem map[string]string] *)
Abbreviation MikrotikItem := (gmap string string).

(** The provider configuration read through [d.Get]. *)
Record ResourceData := mkResourceData {
  insecure : bool;
  ca_certificate : string;
  hosturl : string;
  username : string;
  password : string;
  routeros_version : string;
  suppress_syso_del_warn : bool;
  rest_timeout : Z
}.

(** ** The environment and the effects of the constructor *)

(** What the constructor asks of the outside: the URL parser and printer
    of [net/url], the file system, the router behind [routeros.Dial] and
    [routeros.DialTLS], and the repository's [ReadItems] (called with a
    [nil] item id). An [option error] is [None] for Go's [nil] error. *)
Record Env := mkEnv {
  url_Parse : string -> error + url.URL;
  url_String : url.URL -> string;
  os_Stat : string -> option error;
  os_ReadFile : string -> error + list byte;
  routeros_Dial : Session -> option error;
  ReadItems : string -> Client -> error + list MikrotikItem
}.

Inductive LogLevel := INFO.

(** The calls that leave the process, in the order they are made. *)
Inductive Event :=
| EvStat (name : string)
| EvReadFile (name : string)
| EvDebug (msg : string)
| EvMessage (level : LogLevel) (msg : string)
| EvDial (s : Session)
| EvAsync
| EvReadItems (path : string) (c : Client).

(** The package variable [RouterOSVersion] and the trace of calls. *)
Record State := mkState {
  RouterOSVersion : string;
  trace : list Event
}.

(** A statement either goes on with a value, returns [r] from the
    enclosing function, or panics. *)
Inductive Step (R A : Type) :=
| Next (a : A)
| Return (r : R)
| Panic (msg : string).
Arguments Next {R A} a.
Arguments Return {R A} r.
Arguments Panic {R A} msg.

Definition M (R A : Type) : Type := State -> Step R A * State.

Definition pure {R A} (a : A) : M R A := fun st => (Next a, st).

Definition bind {R A B} (m : M R A) (k : A -> M R B) : M R B :=
  fun st =>
    match m st with
    | (Next a, st') => k a st'
    | (Return r, st') => (Return r, st')
    | (Panic msg, st') => (Panic msg, st')
    end.

Notation "x <- m ;; k" := (bind m (fun x => k))
  (at level 100, m at next level, right associativity).
Notation "m ;; k" := (bind m (fun _ => k))
  (at level 100, right associativity).

Definition ret {R A} (r : R) : M R A := fun st => (Return r, st).
Definition panic {R A} (msg : string) : M R A := fun st => (Panic msg, st).

Definition emit {R} (e : Event) : M R unit :=
  fun st => (Next tt, mkState (RouterOSVersion st) (trace st ++ [e])).

Definition get_RouterOSVersion {R} : M R string :=
  fun st => (Next (RouterOSVersion st), st).

Definition set_RouterOSVersion {R} (v : string) : M R unit :=
  fun st => (Next tt, mkState v (trace st)).

(** A call of a function written in [M]: its [Return] is the value of
    the call. *)
Definition call {R A} (f : M A A) : M R A :=
  fun st =>
    match f st with
    | (Next a, st') => (Next a, st')
    | (Return a, st') => (Next a, st')
    | (Panic msg, st') => (Panic msg, st')
    end.

(** The result of a whole function: it returned, or it panicked. *)
Inductive Outcome (R : Type) :=
| Returns (r : R)
| Panics (msg : string).
Arguments Returns {R} r.
Arguments Panics {R} msg.

Definition exec {R} (f : M R R) (st : State) : Outcome R * State :=
  match f st with
  | (Next r, st') => (Returns r, st')
  | (Return r, st') => (Returns r, st')
  | (Panic msg, st') => (Panics msg, st')
  end.

Section Client.

Variable env : Env.

Definition Stat {R} (name : string) : M R (option error) :=
  emit (EvStat name) ;; pure (os_Stat env name).

Definition ReadFile {R} (name : string) : M R (error + list byte) :=
  emit (EvReadFile name) ;; pure (os_ReadFile env name).

Definition ColorizedDebug {R} (msg : string) : M R unit :=
  emit (EvDebug msg).

Definition ColorizedMessage {R} (level : LogLevel) (msg : string) : M R unit :=
  emit (EvMessage level msg).

Definition Dial {R} (s : Session) : M R (option error) :=
  emit (EvDial s) ;; pure (routeros_Dial env s).

Definition do_ReadItems {R} (path : string) (c : Client)
  : M R (error + list MikrotikItem) :=
  emit (EvReadItems path c) ;; pure (ReadItems env path c).

(** [func GetRouterOSVersion(m interface{}) (string, diag.Diagnostics)] *)
Definition GetRouterOSVersion (m : Client)
  : M (string * diag.Diagnostics) (string * diag.Diagnostics) :=
  r <- do_ReadItems "/system/resource" m ;;
  match r with
  | inl err => ret ("", diag.FromErr err)
  | inr res =>
      match res with
      | [] => ret ("", diag.Errorf "RouterOS version not found")
      | item :: _ =>
          match item !! "version" with
          | None => ret ("", diag.Errorf "RouterOS version not found")
          | Some version =>
              let re := version_re in
              if negb (regexp.MatchString re version)
              then ret ("", diag.Errorf "RouterOS version not found")
              else ret (regexp.FindString re version, [])
          end
      end
  end.

(** The result type of [NewClient]: [(interface{}, diag.Diagnostics)]. *)
Definition Result : Type := option Client * diag.Diagnostics.

(** Lines 52-76: the TLS configuration. *)
Definition NewClient_tls (d : ResourceData) : M Result tls.Config :=
  let tlsConf := tls.mkConfig (insecure d) None in
  let caCertificate := ca_certificate d in
  if tls.InsecureSkipVerify tlsConf && negb (String.eqb caCertificate "")
  then ret (None, diag.Errorf
              ("You have selected mutually exclusive options: " +:+
               "ca_certificate and insecure connection. Please check the ENV variables and TF files."))
  else
    if negb (String.eqb caCertificate "") then
      serr <- Stat caCertificate ;;
      match serr with
      | Some err =>
          ColorizedDebug ("Failed to read CA file '" +:+ caCertificate +:+
                          "', error: " +:+ err) ;;
          ret (None, diag.FromErr err)
      | None =>
          let certPool := x509.NewCertPool in
          rf <- ReadFile caCertificate ;;
          match rf with
          | inl err =>
              ColorizedDebug ("Failed to read CA file '" +:+ caCertificate +:+
                              "', error: " +:+ err) ;;
              ret (None, diag.Errorf
                           ("Failed to read CA file '" +:+ caCertificate +:+
                            "', " +:+ err))
          | inr file =>
              let certPool := x509.AppendCertsFromPEM certPool file in
              pure (tls.mkConfig (tls.InsecureSkipVerify tlsConf) (Some certPool))
          end
      end
    else pure tlsConf.

(** Lines 78-91: the router URL. *)
Definition NewClient_url (d : ResourceData) : M Result url.URL :=
  let first := url_Parse env (hosturl d) in
  let second :=
    match first with
    | inl _ => url_Parse env ("https://" +:+ hosturl d)
    | inr routerUrl =>
        if String.eqb (url.Host routerUrl) ""
        then url_Parse env ("https://" +:+ hosturl d)
        else first
    end in
  match second with
  | inl err =>
      ret (None,
           [ diag.mkDiagnostic diag.Error err
               ("Error while parsing the router URL: '" +:+ hosturl d +:+ "'") ])
  | inr routerUrl =>
      pure (url.set_Path routerUrl (strings.TrimSuffix (url.Path routerUrl) "/"))
  end.

(** Lines 93-115: the transport, from the scheme. The value is the
    router URL, [useTLS] and [transport]. *)
Definition NewClient_transport (routerUrl : url.URL)
  : M Result (url.URL * bool * TransportType) :=
  let useTLS := true in
  let transport := TransportREST in
  if String.eqb (url.Scheme routerUrl) "http" then
    pure (routerUrl, useTLS, transport)
  else if String.eqb (url.Scheme routerUrl) "https" then
    pure (routerUrl, useTLS, transport)
  else if String.eqb (url.Scheme routerUrl) "apis" then
    let routerUrl := url.set_Scheme routerUrl "" in
    let routerUrl :=
      if String.eqb (url.Port routerUrl) ""
      then url.set_Host routerUrl (url.Host routerUrl +:+ ":8729")
      else routerUrl in
    pure (routerUrl, useTLS, TransportAPI)
  else if String.eqb (url.Scheme routerUrl) "api" then
    let routerUrl := url.set_Scheme routerUrl "" in
    let routerUrl :=
      if String.eqb (url.Port routerUrl) ""
      then url.set_Host routerUrl (url.Host routerUrl +:+ ":8728")
      else routerUrl in
    pure (routerUrl, false, TransportAPI)
  else
    panic ("[NewClient] wrong transport type: " +:+ url.Scheme routerUrl).

(** Lines 147-155 and 181-189: the version probe of a new client. *)
Definition NewClient_probe (c : Client) : M Result unit :=
  v <- get_RouterOSVersion ;;
  if String.eqb v "" then
    probe <- call (GetRouterOSVersion c) ;;
    let '(ros, diags) := probe in
    match diags with
    | _ :: _ => ret (None, diags)
    | [] =>
        set_RouterOSVersion ros ;;
        ColorizedMessage INFO ("RouterOS: " +:+ ros)
    end
  else pure tt.

(** [func NewClient(ctx, d) (interface{}, diag.Diagnostics)] *)
Definition NewClient (d : ResourceData) : M Result Result :=
  tlsConf <- NewClient_tls d ;;
  routerUrl <- NewClient_url d ;;
  chosen <- NewClient_transport routerUrl ;;
  let '(routerUrl, useTLS, transport) := chosen in
  set_RouterOSVersion (routeros_version d) ;;
  (if negb (String.eqb (routeros_version d) "")
   then ColorizedMessage INFO ("RouterOS from env: " +:+ routeros_version d)
   else pure tt) ;;
  match transport with
  | TransportAPI =>
      let api := mkApiClient (url.Host routerUrl) (username d) (password d)
                   TransportAPI
                   (mkExtraParams (suppress_syso_del_warn d)) None in
      let session :=
        mkSession (api_HostURL api) (api_Username api) (api_Password api)
          (if useTLS then Some tlsConf else None) in
      derr <- Dial session ;;
      match derr with
      | Some err => ret (None, diag.FromErr err)
      | None =>
          let api := mkApiClient (api_HostURL api) (api_Username api)
                       (api_Password api) (api_Transport api) (api_extra api)
                       (Some session) in
          emit EvAsync ;;
          NewClient_probe (Api api) ;;
          ret (Some (Api api), [])
      end
  | TransportREST =>
      let rest := mkRestClient (url_String env routerUrl) (username d)
                    (password d) TransportREST
                    (mkExtraParams (suppress_syso_del_warn d)) None in
      let rest := mkRestClient (rest_HostURL rest) (rest_Username rest)
                    (rest_Password rest) (rest_Transport rest)
                    (rest_extra rest)
                    (Some (http.mkClient
                             (time.mul (rest_timeout d) time.Second)
                             (http.mkTransport tlsConf))) in
      NewClient_probe (Rest rest) ;;
      ret (Some (Rest rest), [])
  end.

End Client.

(** ** [net/url] on plain input

    [url.Parse] and [URL.String] for text made of ASCII letters, digits
    and the characters [- . _ ~ : / ? = & +] only. On such text no
    percent-decoding or escaping takes place, there is no user
    information, no bracketed address and no fragment. Other input is
    outside this model and yields [None]. *)

Module net_url.

Definition is_alpha (c : ascii) : bool :=
  let n := nat_of_ascii c in
  (97 <=? n)%nat && (n <=? 122)%nat || (65 <=? n)%nat && (n <=? 90)%nat.

Definition is_plain (c : ascii) : bool :=
  is_alpha c || regexp.is_digit c
  || existsb (Ascii.eqb c) (list_ascii_of_string "-._~:/?=&+").

Fixpoint plain (s : string) : bool :=
  match s with
  | EmptyString => true
  | String c s' => is_plain c && plain s'
  end.

(** [getScheme(rawURL)]: [s] is [rawURL[i:]]. *)
Fixpoint getScheme_from (i : nat) (rawURL s : string)
  : error + (string * string) :=
  match s with
  | EmptyString => inr ("", rawURL)
  | String c s' =>
      if is_alpha c then getScheme_from (S i) rawURL s'
      else if regexp.is_digit c || Ascii.eqb c "+" || Ascii.eqb c "-"
              || Ascii.eqb c "."
      then (if (i =? 0)%nat then inr ("", rawURL)
            else getScheme_from (S i) rawURL s')
      else if Ascii.eqb c ":"
      then (if (i =? 0)%nat then inl "missing protocol scheme"
            else inr (String.substring 0 i rawURL, s'))
      else inr ("", rawURL)
  end.

Definition getScheme (rawURL : string) : error + (string * string) :=
  getScheme_from 0 rawURL rawURL.

(** Go's [%q] of plain text. *)
Definition quote (s : string) : string :=
  String "034" s +:+ String "034" "".

(** [parseHost(host)] of a host without brackets. *)
Definition parseHost (host : string) : error + string :=
  match strings.LastIndexByte host ":" with
  | Some i =>
      let colonPort := String.substring i (String.length host - i) host in
      if negb (url.validOptionalPort colonPort)
      then inl ("invalid port " +:+ quote colonPort +:+ " after host")
      else inr host
  | None => inr host
  end.

(** [parse(rawURL, false)] *)
Definition parse (rawURL : string) : error + url.URL :=
  match getScheme rawURL with
  | inl err => inl err
  | inr (scheme, rest) =>
      let scheme := strings.ToLower scheme in
      let '(rest, rawQuery, forceQuery) :=
        if strings.HasSuffix rest "?" && (strings.Count rest "?" =? 1)%nat
        then (String.substring 0 (String.length rest - 1) rest, "", true)
        else let '(before, after, _) := strings.Cut rest "?" in
             (before, after, false) in
      if negb (strings.HasPrefix rest "/") && negb (String.eqb scheme "")
      then inr (url.mkURL scheme rest None "" "" "" false forceQuery rawQuery "" "")
      else if negb (strings.HasPrefix rest "/")
              && (let '(segment, _, _) := strings.Cut rest "/" in
                  match strings.IndexByte segment ":" with
                  | Some _ => true
                  | None => false
                  end)
      then inl "first path segment in URL cannot contain colon"
      else if (negb (String.eqb scheme "")
               || negb (strings.HasPrefix rest "///"))
              && strings.HasPrefix rest "//"
      then
        let authority := String.substring 2 (String.length rest - 2) rest in
        let '(authority, rest) :=
          match strings.IndexByte authority "/" with
          | Some i =>
              (String.substring 0 i authority,
               String.substring i (String.length authority - i) authority)
          | None => (authority, "")
          end in
        match parseHost authority with
        | inl err => inl err
        | inr host =>
            inr (url.mkURL scheme "" None host rest "" false forceQuery
                   rawQuery "" "")
        end
      else if negb (String.eqb scheme "") && strings.HasPrefix rest "/"
      then inr (url.mkURL scheme "" None "" rest "" true forceQuery rawQuery "" "")
      else inr (url.mkURL scheme "" None "" rest "" false forceQuery rawQuery "" "")
  end.

(** [url.Parse(rawURL)] *)
Definition Parse (rawURL : string) : option (error + url.URL) :=
  if plain rawURL then
    match parse rawURL with
    | inl err => Some (inl ("parse " +:+ quote rawURL +:+ ": " +:+ err))
    | inr u => Some (inr u)
    end
  else None.

(** [func (u *URL) String() string] *)
Definition String_of (u : url.URL) : option string :=
  if plain (url.Scheme u) && plain (url.Opaque u) && plain (url.Host u)
     && plain (url.Path u) && plain (url.RawQuery u)
     && String.eqb (url.RawPath u) "" && String.eqb (url.Fragment u) ""
     && match url.User u with None => true | Some _ => false end
  then
    let buf := "" in
    let buf :=
      if negb (String.eqb (url.Scheme u) "")
      then buf +:+ url.Scheme u +:+ ":" else buf in
    let buf :=
      if negb (String.eqb (url.Opaque u) "") then buf +:+ url.Opaque u
      else
        let buf :=
          if negb (String.eqb (url.Scheme u) "")
             || negb (String.eqb (url.Host u) "")
          then
            if url.OmitHost u && String.eqb (url.Host u) "" then buf
            else
              let buf :=
                if negb (String.eqb (url.Host u) "")
                   || negb (String.eqb (url.Path u) "")
                then buf +:+ "//" else buf in
              buf +:+ url.Host u
          else buf in
        let path := url.Path u in
        let buf :=
          match path with
          | String c _ =>
              if negb (Ascii.eqb c "/") && negb (String.eqb (url.Host u) "")
              then buf +:+ "/" else buf
          | EmptyString => buf
          end in
        let buf :=
          if (String.length buf =? 0)%nat
             && (let '(segment, _, _) := strings.Cut path "/" in
                 match strings.IndexByte segment ":" with
                 | Some _ => true
                 | None => false
                 end)
          then buf +:+ "./" else buf in
        buf +:+ path in
    let buf :=
      if url.ForceQuery u || negb (String.eqb (url.RawQuery u) "")
      then buf +:+ "?" +:+ url.RawQuery u else buf in
    Some buf
  else None.

End net_url.

(** ** A sample environment

    The library functions of [net/url] on plain input, a file system
    with one CA bundle, a router that accepts every session and reports
    RouterOS 7.1. *)

Definition sample_ca : string := "/etc/ssl/router-ca.pem".

Definition sample_item : MikrotikItem :=
  <["version" := "7.1 (stable)"]> (<["uptime" := "1d2h"]> ∅).

Definition sample_env : Env := {|
  url_Parse s :=
    match net_url.Parse s with
    | Some r => r
    | None => inl "input outside the modelled syntax"
    end;
  url_String u :=
    match net_url.String_of u with
    | Some s => s
    | None => ""
    end;
  os_Stat name :=
    if String.eqb name sample_ca then None
    else Some ("stat " +:+ name +:+ ": no such file or directory");
  os_ReadFile name :=
    if String.eqb name sample_ca
    then inr (String.list_byte_of_string "-----BEGIN CERTIFICATE-----")
    else inl ("open " +:+ name +:+ ": no such file or directory");
  routeros_Dial _ := None;
  ReadItems _ _ := inr [sample_item]
|}.

(** The same, with a router that cannot be reached. *)
Definition offline_env : Env := {|
  url_Parse := url_Parse sample_env;
  url_String := url_String sample_env;
  os_Stat := os_Stat sample_env;
  os_ReadFile := os_ReadFile sample_env;
  routeros_Dial _ := Some "dial tcp: connection refused";
  ReadItems _ _ := inl "connection refused"
|}.

(** The same, with a router whose read of [/system/resource] gives [r]. *)
Definition router_env (r : error + list MikrotikItem) : Env := {|
  url_Parse := url_Parse sample_env;
  url_String := url_String sample_env;
  os_Stat := os_Stat sample_env;
  os_ReadFile := os_ReadFile sample_env;
  routeros_Dial := routeros_Dial sample_env;
  ReadItems _ _ := r
|}.

Definition sample_client : Client :=
  Rest (mkRestClient "https://router.lan" "admin" "secret" TransportREST
          (mkExtraParams false)
          (Some (http.mkClient 10000000000
                   (http.mkTransport (tls.mkConfig false None))))).

Definition initial_state : State := mkState "" [].

Definition sample_config (url : string) : ResourceData := {|
  insecure := false;
  ca_certificate := "";
  hosturl := url;
  username := "admin";
  password := "secret";
  routeros_version := "";
  suppress_syso_del_warn := false;
  rest_timeout := 10
|}.

(** ** Escapes, as they are meant to read *)

(** A byte below [0x20]. *)
Definition is_control (ch : byte) : bool := (Byte.to_N ch <? 32)%N.

(** The value of a hexadecimal digit. *)
Definition hex_digit_value (b : byte) : option N :=
  let n := Byte.to_N b in
  if (48 <=? n)%N && (n <=? 57)%N then Some (n - 48)%N
  else if (97 <=? n)%N && (n <=? 102)%N then Some (n - 87)%N
  else if (65 <=? n)%N && (n <=? 70)%N then Some (n - 55)%N
  else None.

(** The number that a string of hexadecimal digits denotes. *)
Definition hex_value (digits : list byte) : option N :=
  fold_left
    (fun acc b =>
       match acc, hex_digit_value b with
       | Some a, Some v => Some (16 * a + v)%N
       | _, _ => None
       end)
    digits (Some 0%N).

(** The escape of a control byte: a backslash, [u], and its value in
    four hexadecimal digits; any other byte stands for itself. *)
Definition hex_digit (v : N) : byte :=
  match Byte.of_N (if (v <? 10)%N then 48 + v else 87 + v)%N with
  | Some b => b
  | None => x00
  end.

Definition escape_image (ch : byte) : list byte :=
  if is_control ch then
    let n := Byte.to_N ch in
    [x5c; x75; hex_digit (n / 4096 mod 16); hex_digit (n / 256 mod 16);
     hex_digit (n / 16 mod 16); hex_digit (n mod 16)]%N
  else [ch].

(** The number of control bytes of a sequence. *)
Definition count_control (data : list byte) : nat :=
  length (filter (fun ch => is_control ch = true) data).

(** ** Notions used in the statements *)

(** The state after the one read of the probe. *)
Definition after_read (m : Client) (st : State) : State :=
  mkState (RouterOSVersion st)
    (trace st ++ [EvReadItems "/system/resource" m]).

Definition not_found : diag.Diagnostics :=
  diag.Errorf "RouterOS version not found".


(** The first parse of the endpoint does not give a host, so that the
    constructor parses it again behind [https://]. *)
Definition retried (env : Env) (endpoint : string) : Prop :=
  (exists err, url_Parse env endpoint = inl err)
  \/ (exists u, url_Parse env endpoint = inr u /\ url.Host u = "").

(** The diagnostic of an endpoint that cannot be parsed. *)
Definition url_parse_diagnostic (err : error) (endpoint : string)
  : diag.Diagnostics :=
  [ diag.mkDiagnostic diag.Error err
      ("Error while parsing the router URL: '" +:+ endpoint +:+ "'") ].

(** The diagnostic of the two exclusive TLS options. *)
Definition conflict_diagnostic : diag.Diagnostics :=
  diag.Errorf
    "You have selected mutually exclusive options: ca_certificate and insecure connection. Please check the ENV variables and TF files.".

(** The router URL as the constructor keeps it: the parsed URL without
    one trailing separator of its path. *)
Definition normalised (u : url.URL) : url.URL :=
  url.set_Path u (strings.TrimSuffix (url.Path u) "/").

(** Every way a matcher reports is a match of a prefix of its input. *)
Definition sound_on (step : string -> list string) (r : regexp.syntax) : Prop :=
  forall s e, e ∈ step s -> exists w, s = w +:+ e /\ regexp.matches r w.

(** A pattern without the assertion [^]. *)
Fixpoint anchor_free (r : regexp.syntax) : bool :=
  match r with
  | regexp.BeginText => false
  | regexp.EmptyMatch | regexp.Literal _ | regexp.CharClass _ => true
  | regexp.Concat r1 r2 => anchor_free r1 && anchor_free r2
  | regexp.Quest r | regexp.Plus r | regexp.Capture r => anchor_free r
  end.

(** A string that begins with a version of the shape [X.Y] or [X.Y.Z]. *)
Definition has_version_prefix (s : string) : Prop :=
  exists v tail, s = v +:+ tail /\ version_shape v.

(** ** Notions used in the further statements *)

(** The text begins with an ASCII digit. *)
Definition starts_with_digit (s : string) : bool :=
  match s with
  | String c _ => regexp.is_digit c
  | EmptyString => false
  end.

(** The text begins with a dot and a digit, that is, with the start of
    one more numeric component. *)
Definition starts_component (s : string) : bool :=
  match s with
  | String c rest => Ascii.eqb c "." && starts_with_digit rest
  | EmptyString => false
  end.

(** The log line about a configured version, if there is one. *)
Definition version_note (d : ResourceData) : list Event :=
  if negb (String.eqb (routeros_version d) "")
  then [EvMessage INFO ("RouterOS from env: " +:+ routeros_version d)]
  else [].

(** The state when the constructor is past the scheme switch and has
    taken over the configured version. *)
Definition configured (d : ResourceData) (st : State) : State :=
  mkState (routeros_version d) (trace st ++ version_note d).

(** The REST client that the constructor builds for a router URL. *)
Definition rest_client (env : Env) (d : ResourceData) (tlsConf : tls.Config)
           (routerUrl : url.URL) : RestClient :=
  mkRestClient (url_String env routerUrl) (username d) (password d)
    TransportREST (mkExtraParams (suppress_syso_del_warn d))
    (Some (http.mkClient (time.mul (rest_timeout d) time.Second)
             (http.mkTransport tlsConf))).

(** The session that the constructor dials, and the API client around
    it. *)
Definition api_session (d : ResourceData) (tlsConf : tls.Config)
           (routerUrl : url.URL) (useTLS : bool) : Session :=
  mkSession (url.Host routerUrl) (username d) (password d)
    (if useTLS then Some tlsConf else None).

Definition api_client (d : ResourceData) (tlsConf : tls.Config)
           (routerUrl : url.URL) (useTLS : bool) : ApiClient :=
  mkApiClient (url.Host routerUrl) (username d) (password d) TransportAPI
    (mkExtraParams (suppress_syso_del_warn d))
    (Some (api_session d tlsConf routerUrl useTLS)).

(** A state with further events in its trace. *)
Definition logged (st : State) (events : list Event) : State :=
  mkState (RouterOSVersion st) (trace st ++ events).

(** The three ways the probe of a new client can go in a state: it is
    skipped, it sets the version, or it fails. *)
Inductive probe_result (env : Env) (c : Client) (st : State)
  : Step Result unit * State -> Prop :=
| probe_skipped :
    RouterOSVersion st <> "" ->
    probe_result env c st (Next tt, st)
| probe_set (v : string) :
    RouterOSVersion st = "" -> version_shape v ->
    probe_result env c st
      (Next tt,
       mkState v (trace st ++ [EvReadItems "/system/resource" c;
                               EvMessage INFO ("RouterOS: " +:+ v)]))
| probe_failed (msg : string) :
    RouterOSVersion st = "" ->
    probe_result env c st
      (Return (None, [diag.mkDiagnostic diag.Error msg ""]),
       logged st [EvReadItems "/system/resource" c]).

(** How the constructor ends once the probe of the new client [c] has
    run. *)
Definition after_probe (c : Client) (p : Step Result unit * State)
  : Outcome Result * State :=
  match p with
  | (Next _, s) => (Returns (Some c, []), s)
  | (Return r, s) => (Returns r, s)
  | (Panic msg, s) => (Panics msg, s)
  end.

(** The events of the file system and of the debug lines about it. *)
Definition is_file_event (e : Event) : bool :=
  match e with
  | EvStat _ | EvReadFile _ | EvDebug _ => true
  | _ => false
  end.

(** The events of the binary session: the dial and the switch to the
    asynchronous mode. *)
Definition is_session_event (e : Event) : bool :=
  match e with
  | EvDial _ | EvAsync => true
  | _ => false
  end.

(** The reads of items. *)
Definition is_read_event (e : Event) : bool :=
  match e with
  | EvReadItems _ _ => true
  | _ => false
  end.

(** The sample environment, with files that exist and cannot be read. *)
Definition unreadable_env : Env := {|
  url_Parse := url_Parse sample_env;
  url_String := url_String sample_env;
  os_Stat _ := None;
  os_ReadFile name := inl ("open " +:+ name +:+ ": permission denied");
  routeros_Dial := routeros_Dial sample_env;
  ReadItems := ReadItems sample_env
|}.

(** A configuration with a CA path. *)
Definition ca_config (ca : string) : ResourceData := {|
  insecure := false;
  ca_certificate := ca;
  hosturl := "https://router.lan";
  username := "admin";
  password := "secret";
  routeros_version := "";
  suppress_syso_del_warn := false;
  rest_timeout := 10
|}.

(** A configuration with a version. *)
Definition versioned_config (url version : string) : ResourceData := {|
  insecure := false;
  ca_certificate := "";
  hosturl := url;
  username := "admin";
  password := "secret";
  routeros_version := version;
  suppress_syso_del_warn := true;
  rest_timeout := 10
|}.

(** How the constructor ends for a client [c] once the version probe
    has been made in full. *)
Definition after_version (c : Client)
           (p : Outcome (string * diag.Diagnostics) * State)
  : Outcome Result * State :=
  match p with
  | (Returns (v, []), s) =>
      (Returns (Some c, []),
       mkState v (trace s ++ [EvMessage INFO ("RouterOS: " +:+ v)]))
  | (Returns (_, dg :: dgs), s) => (Returns (None, dg :: dgs), s)
  | (Panics msg, s) => (Panics msg, s)
  end.

(** * Properties *)

(** ** Strings *)

Lemma append_cons (c : ascii) (s t : string) :
  String c s +:+ t = String c (s +:+ t).
Proof. reflexivity. Qed.

Lemma append_empty_l (s : string) : "" +:+ s = s.
Proof. reflexivity. Qed.

Lemma append_empty_r (s : string) : s +:+ "" = s.
Proof.
  induction s as [|c s IH]; [reflexivity | now rewrite append_cons, IH].
Qed.

Lemma append_assoc (a b c : string) : (a +:+ b) +:+ c = a +:+ (b +:+ c).
Proof.
  induction a as [|x a IH]; [reflexivity | now rewrite !append_cons, IH].
Qed.

Lemma length_append (a b : string) :
  String.length (a +:+ b) = (String.length a + String.length b)%nat.
Proof.
  induction a as [|x a IH]; [reflexivity|].
  rewrite append_cons. simpl. now rewrite IH.
Qed.

Lemma substring_0_0 (s : string) : String.substring 0 0 s = "".
Proof. destruct s; reflexivity. Qed.


Lemma substring_append_l (a b : string) :
  String.substring 0 (String.length a) (a +:+ b) = a.
Proof.
  induction a as [|x a IH]; [apply substring_0_0|].
  rewrite append_cons. simpl. now rewrite IH.
Qed.

Lemma substring_append_r (a b : string) (n : nat) :
  String.substring (String.length a) n (a +:+ b) = String.substring 0 n b.
Proof.
  induction a as [|x a IH]; [reflexivity | rewrite append_cons; exact IH].
Qed.


(** A string is empty or has a last character. *)
Lemma string_last_cases (s : string) :
  s = "" \/ exists t c, s = t +:+ String c "".
Proof.
  induction s as [|x s IH]; [now left | right].
  destruct IH as [-> | (t & c & ->)].
  - now exists "", x.
  - now exists (String x t), c.
Qed.

Lemma eqb_single (c d : ascii) :
  String.eqb (String c "") (String d "") = Ascii.eqb c d.
Proof. simpl. now destruct (Ascii.eqb c d). Qed.

Lemma HasSuffix_char (t : string) (c d : ascii) :
  strings.HasSuffix (t +:+ String c "") (String d "") = Ascii.eqb c d.
Proof.
  unfold strings.HasSuffix. rewrite length_append.
  change (String.length (String c "")) with 1%nat.
  change (String.length (String d "")) with 1%nat.
  rewrite Nat.add_sub, substring_append_r.
  replace (1 <=? String.length t + 1)%nat with true
    by (symmetry; apply Nat.leb_le; lia).
  change (String.substring 0 1 (String c "")) with (String c "").
  rewrite andb_true_l. apply eqb_single.
Qed.

Lemma TrimSuffix_char_same (t : string) (c : ascii) :
  strings.TrimSuffix (t +:+ String c "") (String c "") = t.
Proof.
  unfold strings.TrimSuffix. rewrite HasSuffix_char, Ascii.eqb_refl.
  rewrite length_append.
  change (String.length (String c "")) with 1%nat.
  rewrite Nat.add_sub. apply substring_append_l.
Qed.

Lemma TrimSuffix_no_suffix (s suffix : string) :
  strings.HasSuffix s suffix = false -> strings.TrimSuffix s suffix = s.
Proof. unfold strings.TrimSuffix. now intros ->. Qed.

Lemma HasPrefix_char (c d : ascii) (t : string) :
  strings.HasPrefix (String c t) (String d "") = Ascii.eqb c d.
Proof.
  unfold strings.HasPrefix.
  change (String.length (String d "")) with 1%nat.
  change (String.substring 0 1 (String c t))
    with (String c (String.substring 0 0 t)).
  rewrite substring_0_0.
  change (1 <=? String.length (String c t))%nat with true.
  rewrite andb_true_l. apply eqb_single.
Qed.

(** ** REST addressing *)

Lemma Join_head (f : string) (fs : list string) (sep : string) :
  exists tail, strings.Join (f :: fs) sep = f +:+ tail.
Proof.
  unfold strings.Join. destruct fs as [|g fs]; simpl.
  - exists "". now rewrite append_empty_r.
  - now eexists.
Qed.

(** C8. [GetRestURL] is the path followed by the fragments joined with
    [&]; a single [?] goes between the two exactly when the joined
    query is not empty and does not begin with [?]. For the path
    [/ip/address] and the fragment [name=eth0] it is
    [/ip/address?name=eth0], and a first fragment that starts with [?]
    gets no second one. *)
Theorem GetRestURL_rendering :
  (forall u : URL,
     let q := strings.Join (Query u) "&" in
     GetRestURL u =
       Path u +:+
       (if negb (String.eqb q "") && negb (strings.HasPrefix q "?")
        then "?" +:+ q else q))
  /\ GetRestURL (mkURL "/ip/address" ["name=eth0"]) = "/ip/address?name=eth0"
  /\ (forall (path f : string) (fs : list string),
        GetRestURL (mkURL path (String "?" f :: fs)) =
          path +:+ strings.Join (String "?" f :: fs) "&").
Proof.
  split; [|split].
  - intros u q. unfold GetRestURL. fold q.
    destruct q as [|c q']; [reflexivity|].
    rewrite HasPrefix_char. simpl.
    now destruct (Ascii.eqb c "?").
  - reflexivity.
  - intros path f fs. unfold GetRestURL. simpl Query. simpl Path.
    destruct (Join_head (String "?" f) fs "&") as [tail ->].
    reflexivity.
Qed.

(** ** Path normalisation *)

Lemma TrimSuffix_restores (p : string) :
  strings.HasSuffix p "/" = true -> strings.TrimSuffix p "/" +:+ "/" = p.
Proof.
  intros H. destruct (string_last_cases p) as [-> | (t & c & ->)].
  - discriminate H.
  - rewrite HasSuffix_char in H. apply Ascii.eqb_eq in H. subst c.
    now rewrite TrimSuffix_char_same.
Qed.

(** C2 as stated fails: the path [/rest//] of the endpoint
    [https://router.lan/rest//] ends in separators, and its
    normalisation [/rest/] still ends in one; normalising again changes
    it once more. *)
Lemma path_normalisation_leaves_separator :
  let d := sample_config "https://router.lan/rest//" in
  (exists u, url_Parse sample_env (hosturl d) = inr u
             /\ url.Host u = "router.lan" /\ url.Path u = "/rest//")
  /\ (exists u, NewClient_url sample_env d initial_state = (Next u, initial_state)
                /\ url.Path u = "/rest/"
                /\ strings.HasSuffix (url.Path u) "/" = true)
  /\ strings.TrimSuffix (strings.TrimSuffix "/rest//" "/") "/"
     <> strings.TrimSuffix "/rest//" "/".
Proof.
  split; [|split].
  - eexists. split; [reflexivity|]. split; reflexivity.
  - eexists. split; [reflexivity|]. split; reflexivity.
  - discriminate.
Qed.

(** ** Escaping *)

Lemma EscapeChars_step_image (res : list byte) (ch : byte) :
  EscapeChars_step res ch = res ++ escape_image ch.
Proof.
  unfold EscapeChars_step, escape_image, is_control.
  destruct (Byte.to_N ch <? 32)%N eqn:Hc; [|reflexivity].
  rewrite length_app.
  change (length escape_template) with 6%nat.
  replace (length res + 6 - 2)%nat with (length res + 4)%nat by lia.
  rewrite take_app_add, drop_app_add. rewrite <- app_assoc. f_equal.
  destruct ch; try discriminate Hc; reflexivity.
Qed.

Lemma fold_EscapeChars_step (data acc : list byte) :
  fold_left EscapeChars_step data acc = acc ++ (data ≫= escape_image).
Proof.
  revert acc. induction data as [|ch data IH]; intros acc; simpl.
  - now rewrite app_nil_r.
  - rewrite IH, EscapeChars_step_image, <- app_assoc. reflexivity.
Qed.

Lemma EscapeChars_image (data : list byte) :
  EscapeChars data = data ≫= escape_image.
Proof. unfold EscapeChars. now rewrite fold_EscapeChars_step. Qed.

Lemma escape_image_control (ch : byte) :
  is_control ch = true ->
  exists h3 h2 h1 h0,
    escape_image ch = [x5c; x75; h3; h2; h1; h0]
    /\ hex_value [h3; h2; h1; h0] = Some (Byte.to_N ch).
Proof.
  intros Hc. destruct ch; try discriminate Hc;
    (do 4 eexists; split; reflexivity).
Qed.

Lemma escape_image_plain (ch : byte) :
  is_control ch = false -> escape_image ch = [ch].
Proof. unfold escape_image. now intros ->. Qed.

Lemma escape_image_printable (ch : byte) :
  Forall (fun b => is_control b = false) (escape_image ch).
Proof.
  destruct (is_control ch) eqn:Hc.
  - destruct ch; try discriminate Hc;
      (repeat constructor).
  - rewrite (escape_image_plain _ Hc). now repeat constructor.
Qed.

Lemma bind_escape_image_plain (data : list byte) :
  Forall (fun b => is_control b = false) data ->
  data ≫= escape_image = data.
Proof.
  induction 1 as [|ch data Hc _ IH]; [reflexivity|].
  rewrite bind_cons, IH, (escape_image_plain _ Hc). reflexivity.
Qed.

(** C5. [EscapeChars] maps the input byte by byte, in order: a byte
    below [0x20] becomes the six characters backslash, [u] and four
    hexadecimal digits that denote the byte's value; any other byte is
    passed through; so an input without bytes below [0x20] comes out as
    it went in. *)
Theorem EscapeChars_bytewise (data : list byte) :
  EscapeChars data = data ≫= escape_image
  /\ (forall ch, is_control ch = true ->
        exists h3 h2 h1 h0,
          escape_image ch = [x5c; x75; h3; h2; h1; h0]
          /\ hex_value [h3; h2; h1; h0] = Some (Byte.to_N ch))
  /\ (forall ch, is_control ch = false -> escape_image ch = [ch])
  /\ (forallb (fun ch => negb (is_control ch)) data = true ->
      EscapeChars data = data
      /\ length (EscapeChars data) = length data).
Proof.
  split; [apply EscapeChars_image|].
  split; [apply escape_image_control|].
  split; [apply escape_image_plain|].
  intros Hall. rewrite EscapeChars_image.
  assert (Hp : Forall (fun b => is_control b = false) data).
  { apply Forall_forall. intros b Hb.
    rewrite forallb_forall in Hall. apply list_elem_of_In in Hb.
    specialize (Hall b Hb).
    now apply negb_true_iff in Hall. }
  now rewrite bind_escape_image_plain.
Qed.

Lemma EscapeChars_bytewise_witness :
  EscapeChars [x48; x0a; x69; x1f]
  = [x48; x5c; x75; x30; x30; x30; x61; x69; x5c; x75; x30; x30; x31; x66]
  /\ EscapeChars [x48; x69; x20; x7e; xff] = [x48; x69; x20; x7e; xff].
Proof.
  split.
  - rewrite (proj1 (EscapeChars_bytewise [x48; x0a; x69; x1f])). reflexivity.
  - exact (proj1 (proj2 (proj2 (proj2
             (EscapeChars_bytewise [x48; x69; x20; x7e; xff]))) eq_refl)).
Defined.

(** C10. An input of [n] bytes of which [k] are below [0x20] gives
    [n + 5 * k] bytes of output, none of them below [0x20]; escaping
    the output again changes nothing. *)
Theorem EscapeChars_length_and_fixpoint (data : list byte) :
  length (EscapeChars data) = (length data + 5 * count_control data)%nat
  /\ Forall (fun b => is_control b = false) (EscapeChars data)
  /\ EscapeChars (EscapeChars data) = EscapeChars data.
Proof.
  assert (Hp : Forall (fun b => is_control b = false) (EscapeChars data)).
  { rewrite EscapeChars_image. apply Forall_bind.
    apply Forall_forall. intros ch _. apply escape_image_printable. }
  split; [|split; [exact Hp|]].
  - clear Hp. rewrite EscapeChars_image. unfold count_control.
    induction data as [|ch data IH]; [reflexivity|].
    rewrite bind_cons, length_app, IH, filter_cons.
    destruct (is_control ch) eqn:Hc.
    + destruct (escape_image_control ch Hc) as (h3 & h2 & h1 & h0 & -> & _).
      rewrite decide_True by reflexivity. simpl. lia.
    + rewrite (escape_image_plain _ Hc).
      rewrite decide_False by discriminate. simpl. lia.
  - rewrite (EscapeChars_image (EscapeChars data)).
    now apply bind_escape_image_plain.
Qed.

(** ** The version pattern *)

Section RegexpSoundness.

Import regexp.

Lemma plus_loop_sound (step : string -> list string) (r : syntax) :
  sound_on step r ->
  forall fuel, sound_on (plus_loop step fuel) (Plus r).
Proof.
  intros Hstep fuel. induction fuel as [|n IH]; intros s e He; simpl in He.
  - inversion He.
  - apply list_elem_of_bind in He. destruct He as (s' & He & Hs').
    destruct (Hstep _ _ Hs') as (w1 & -> & Hw1).
    apply elem_of_app in He. destruct He as [He | He].
    + destruct (String.length s' <? String.length (w1 +:+ s'))%nat;
        [|inversion He].
      destruct (IH _ _ He) as (w2 & -> & Hw2).
      exists (w1 +:+ w2). split; [now rewrite append_assoc|].
      now apply m_plus_more.
    + apply list_elem_of_singleton in He. subst e.
      exists w1. split; [reflexivity | now apply m_plus_one].
Qed.

Lemma run_sound (t : string) (r : syntax) : sound_on (run t r) r.
Proof.
  induction r as [| |c|p|r1 IH1 r2 IH2|r IH|r IH|r IH]; intros s e He;
    simpl in He.
  - apply list_elem_of_singleton in He. subst e.
    exists "". split; [reflexivity | constructor].
  - destruct (String.length s =? String.length t)%nat; [|inversion He].
    apply list_elem_of_singleton in He. subst e.
    exists "". split; [reflexivity | constructor].
  - destruct s as [|a s']; [inversion He|].
    destruct (Ascii.eqb_spec a c) as [->|_]; [|inversion He].
    apply list_elem_of_singleton in He. subst e.
    exists (String c ""). split; [reflexivity | constructor].
  - destruct s as [|a s']; [inversion He|].
    destruct (p a) eqn:Hp; [|inversion He].
    apply list_elem_of_singleton in He. subst e.
    exists (String a ""). split; [reflexivity | now constructor].
  - apply list_elem_of_bind in He. destruct He as (s' & He & Hs').
    destruct (IH1 _ _ Hs') as (w1 & -> & Hw1).
    destruct (IH2 _ _ He) as (w2 & -> & Hw2).
    exists (w1 +:+ w2). split; [now rewrite append_assoc|].
    now constructor.
  - apply elem_of_app in He. destruct He as [He | He].
    + destruct (IH _ _ He) as (w & -> & Hw).
      exists w. split; [reflexivity | now apply m_quest_one].
    + apply list_elem_of_singleton in He. subst e.
      exists "". split; [reflexivity | apply m_quest_none].
  - exact (plus_loop_sound _ _ IH (S (String.length s)) s e He).
  - destruct (IH _ _ He) as (w & -> & Hw).
    exists w. split; [reflexivity | now constructor].
Qed.

(** The pattern is anchored: away from the start of the text it does
    not match. *)
Lemma run_anchored (t : string) (r : syntax) (s : string) :
  String.length s <> String.length t ->
  run t (Concat BeginText r) s = [].
Proof.
  intros Hlen. cbn [run].
  now rewrite (proj2 (Nat.eqb_neq _ _) Hlen).
Qed.

Lemma search_anchored (t : string) (r : syntax) (s : string) :
  (String.length s < String.length t)%nat ->
  search t (Concat BeginText r) s = None.
Proof.
  induction s as [|a s IH]; intros Hlen; cbn [search];
    (rewrite run_anchored by lia); [reflexivity|].
  apply IH. simpl in Hlen. lia.
Qed.

Lemma search_at_start (r : syntax) (s : string) :
  search s (Concat BeginText r) s =
    match run s (Concat BeginText r) s with
    | e :: _ => Some (s, e)
    | [] => None
    end.
Proof.
  destruct s as [|a s]; cbn [search].
  - now destruct (run "" (Concat BeginText r) "").
  - destruct (run (String a s) (Concat BeginText r) (String a s)) eqn:E;
      [|reflexivity].
    apply search_anchored. simpl. lia.
Qed.

(** A successful [FindString] of an anchored pattern returns a prefix
    of the text that the pattern matches. *)
Lemma FindString_anchored (r : syntax) (s : string) :
  MatchString (Concat BeginText r) s = true ->
  exists tail,
    s = FindString (Concat BeginText r) s +:+ tail
    /\ matches (Concat BeginText r) (FindString (Concat BeginText r) s).
Proof.
  unfold MatchString, FindString. rewrite search_at_start.
  destruct (run s (Concat BeginText r) s) as [|e l] eqn:E; [discriminate|].
  intros _.
  destruct (run_sound s (Concat BeginText r) s e) as (w & Hs & Hw).
  { rewrite E. left. }
  assert (Hf : String.substring 0 (String.length s - String.length e) s = w).
  { rewrite Hs, length_append, Nat.add_sub. apply substring_append_l. }
  rewrite Hf. exists e. now split.
Qed.

Lemma all_digits_append (a b : string) :
  all_digits (a +:+ b) = all_digits a && all_digits b.
Proof.
  induction a as [|c a IH]; [reflexivity|].
  rewrite append_cons. simpl. now rewrite IH, andb_assoc.
Qed.

Lemma is_number_append (a b : string) :
  is_number a = true -> is_number b = true -> is_number (a +:+ b) = true.
Proof.
  unfold is_number. intros Ha Hb.
  apply andb_true_iff in Ha, Hb. destruct Ha as [Ha1 Ha2], Hb as [_ Hb2].
  rewrite all_digits_append, Ha2, Hb2.
  destruct a; [discriminate Ha1 | reflexivity].
Qed.

Lemma matches_digits (r : syntax) (w : string) :
  matches r w -> r = Plus (CharClass is_digit) -> is_number w = true.
Proof.
  induction 1 as [| | | | | | |r w Hw _|r w1 w2 Hw1 _ _ IH|];
    intros Hr; try discriminate Hr.
  - injection Hr as ->. inversion Hw as [| | |p c Hc| | | | | |]; subst.
    unfold is_number. simpl. now rewrite Hc.
  - specialize (IH Hr). injection Hr as ->.
    inversion Hw1 as [| | |p c Hc| | | | | |]; subst.
    apply is_number_append; [|exact IH].
    unfold is_number. simpl. now rewrite Hc.
Qed.

(** One group [\d+\.] of the pattern. *)
Lemma matches_group (w : string) :
  matches (Capture (Concat (Plus (CharClass is_digit)) (Literal "."))) w ->
  exists x, is_number x = true /\ w = x +:+ ".".
Proof.
  intros H. inversion H as [| | | | | | | | |r w' Hc]; subst.
  inversion Hc as [| | | |r1 r2 w1 w2 H1 H2| | | | |]; subst.
  inversion H2; subst.
  exists w1. split; [|reflexivity].
  now apply (matches_digits _ _ H1).
Qed.

Lemma matches_version_re (w : string) :
  matches version_re w -> version_shape w.
Proof.
  unfold version_re, Repeat. simpl copies. simpl optional.
  intros H.
  inversion H as [| | | |r1 r2 w0 w' Hb Hrest| | | | |]; subst.
  inversion Hb; subst. rewrite append_empty_l. clear H Hb.
  inversion Hrest as [| | | |r1 r2 wg wz Hg Hz| | | | |]; subst.
  apply (fun H => matches_digits _ _ H eq_refl) in Hz.
  inversion Hg as [| | | |r1 r2 w1 w2 H1 H2| | | | |]; subst.
  inversion H1 as [| | | |r1 r2 wa wb Ha Hb| | | | |]; subst.
  inversion Hb; subst. rewrite append_empty_r.
  apply matches_group in Ha. destruct Ha as (x & Hx & ->).
  inversion H2 as [| | | | |r w Hq| | | |]; subst.
  - inversion Hq as [| | | |r1 r2 wc wd Hc Hd| | | | |]; subst.
    inversion Hd; subst. rewrite append_empty_r.
    apply matches_group in Hc. destruct Hc as (y & Hy & ->).
    right. exists x, y, wz. repeat split; try assumption.
    now rewrite !append_assoc.
  - left. exists x, wz. repeat split; try assumption.
    now rewrite append_empty_r, !append_assoc.
Qed.

End RegexpSoundness.

Section RegexpCompleteness.

Import regexp.

Lemma plus_loop_mono (step : string -> list string) (n m : nat) :
  (n <= m)%nat ->
  forall s e, e ∈ plus_loop step n s -> e ∈ plus_loop step m s.
Proof.
  revert m. induction n as [|n IH]; intros m Hle s e He.
  - inversion He.
  - destruct m as [|m]; [lia|]. cbn [plus_loop] in *.
    apply list_elem_of_bind in He. destruct He as (s' & He & Hs').
    apply list_elem_of_bind. exists s'. split; [|exact Hs'].
    apply elem_of_app in He. apply elem_of_app.
    destruct He as [He | He]; [left | now right].
    destruct (String.length s' <? String.length s)%nat; [|inversion He].
    apply (IH m); [lia | exact He].
Qed.

(** Every match of a pattern without [^] is among the ways [run]
    reports. *)
Lemma run_complete (t : string) (r : syntax) (w : string) :
  matches r w -> anchor_free r = true ->
  forall e, e ∈ run t r (w +:+ e).
Proof.
  induction 1 as [| |c|p c Hc|r1 r2 w1 w2 _ IH1 _ IH2|r w _ IH|r
                  |r w _ IH|r w1 w2 _ IH1 _ IH2|r w _ IH];
    intros Hfree e; cbn [anchor_free] in Hfree.
  - now left.
  - discriminate Hfree.
  - cbn [run]. rewrite append_cons, Ascii.eqb_refl. now left.
  - cbn [run]. rewrite append_cons, Hc. now left.
  - apply andb_true_iff in Hfree. destruct Hfree as [H1 H2].
    cbn [run]. apply list_elem_of_bind. exists (w2 +:+ e). split.
    + now apply IH2.
    + rewrite append_assoc. now apply IH1.
  - cbn [run]. apply elem_of_app. left. now apply IH.
  - cbn [run]. apply elem_of_app. right. now left.
  - cbn [run plus_loop]. apply list_elem_of_bind. exists e. split.
    + apply elem_of_app. right. now left.
    + now apply IH.
  - specialize (IH1 Hfree). specialize (IH2 Hfree e).
    cbn [run] in IH2 |- *. rewrite append_assoc.
    destruct w1 as [|a w1]; [exact IH2|].
    cbn [plus_loop]. apply list_elem_of_bind. exists (w2 +:+ e). split.
    + apply elem_of_app. left.
      rewrite append_cons. cbn [String.length].
      replace (String.length (w2 +:+ e)
               <? S (String.length (w1 +:+ w2 +:+ e)))%nat with true
        by (symmetry; apply Nat.ltb_lt; rewrite !length_append; lia).
      apply (plus_loop_mono _ (S (String.length (w2 +:+ e)))); [|exact IH2].
      rewrite !length_append. lia.
    + apply IH1.
  - cbn [run]. now apply IH.
Qed.

Lemma digits_match (x : string) :
  is_number x = true -> matches (Plus (CharClass is_digit)) x.
Proof.
  unfold is_number. induction x as [|c x IH]; [discriminate|].
  cbn [String.eqb negb andb all_digits]. intros H.
  apply andb_true_iff in H. destruct H as [Hc Hx].
  assert (H1 : matches (CharClass is_digit) (String c "")) by now constructor.
  destruct x as [|c' x'].
  - now apply m_plus_one.
  - change (String c (String c' x')) with (String c "" +:+ String c' x').
    apply m_plus_more; [exact H1|]. apply IH. exact Hx.
Qed.

Lemma group_match (x : string) :
  is_number x = true ->
  matches (Concat (Capture (Concat (Plus (CharClass is_digit)) (Literal ".")))
             EmptyMatch) (x +:+ ".").
Proof.
  intros Hx. rewrite <- (append_empty_r (x +:+ ".")).
  apply m_concat; [|apply m_empty]. apply m_capture.
  apply m_concat; [now apply digits_match | apply m_literal].
Qed.

Lemma version_shape_matches (v : string) :
  version_shape v -> matches version_re v.
Proof.
  unfold version_re, Repeat. cbn [copies optional Nat.sub].
  intros [(x & y & Hx & Hy & ->) | (x & y & z & Hx & Hy & Hz & ->)].
  - change (x +:+ "." +:+ y) with ("" +:+ (x +:+ "." +:+ y)).
    apply m_concat; [apply m_begin|].
    rewrite <- append_assoc. apply m_concat; [|now apply digits_match].
    rewrite <- (append_empty_r (x +:+ ".")).
    apply m_concat; [now apply group_match | apply m_quest_none].
  - change (x +:+ "." +:+ y +:+ "." +:+ z)
      with ("" +:+ (x +:+ "." +:+ y +:+ "." +:+ z)).
    apply m_concat; [apply m_begin|].
    replace (x +:+ "." +:+ y +:+ "." +:+ z)
      with (((x +:+ ".") +:+ (y +:+ ".")) +:+ z)
      by now rewrite !append_assoc.
    apply m_concat; [|now apply digits_match].
    apply m_concat; [now apply group_match|].
    apply m_quest_one. now apply group_match.
Qed.

Lemma run_at_start (t : string) (r : syntax) :
  run t (Concat BeginText r) t = run t r t.
Proof.
  cbn [run]. rewrite Nat.eqb_refl, bind_cons.
  change ([] ≫= run t r) with (@nil string). apply app_nil_r.
Qed.

(** The pattern matches a version field exactly when the field begins
    with a version of the shape [X.Y] or [X.Y.Z]. *)
Lemma MatchString_version_re (s : string) :
  MatchString version_re s = true <-> has_version_prefix s.
Proof.
  split.
  - intros Hm. destruct (FindString_anchored _ _ Hm) as (tail & Hs & Hmatch).
    exists (FindString version_re s), tail.
    split; [exact Hs | now apply matches_version_re].
  - intros (v & tail & -> & Hv). apply version_shape_matches in Hv.
    unfold version_re in Hv.
    inversion Hv as [| | | |r1 r2 w1 w2 Hb Hrest| | | | |]; subst.
    inversion Hb; subst. rewrite append_empty_l.
    pose proof (run_complete (w2 +:+ tail) _ _ Hrest eq_refl tail) as Hin.
    unfold MatchString, version_re.
    rewrite search_at_start, run_at_start.
    match type of Hin with
    | _ ∈ ?l => destruct l; [inversion Hin | reflexivity]
    end.
Qed.

End RegexpCompleteness.

(** ** The version probe *)

Ltac probe_unfold :=
  unfold exec, GetRouterOSVersion, do_ReadItems, bind, emit, pure, ret,
    after_read, not_found.

Section Probe.

Variable env : Env.
Variable m : Client.
Variable st : State.

Lemma probe_read_error (err : error) :
  ReadItems env "/system/resource" m = inl err ->
  exec (GetRouterOSVersion env m) st
  = (Returns ("", diag.FromErr err), after_read m st).
Proof. intros H. probe_unfold. now rewrite H. Qed.

Lemma probe_empty :
  ReadItems env "/system/resource" m = inr [] ->
  exec (GetRouterOSVersion env m) st
  = (Returns ("", not_found), after_read m st).
Proof. intros H. probe_unfold. now rewrite H. Qed.

Lemma probe_no_field (item : MikrotikItem) (rest : list MikrotikItem) :
  ReadItems env "/system/resource" m = inr (item :: rest) ->
  item !! "version" = None ->
  exec (GetRouterOSVersion env m) st
  = (Returns ("", not_found), after_read m st).
Proof. intros H Hv. probe_unfold. now rewrite H, Hv. Qed.

Lemma probe_field (item : MikrotikItem) (rest : list MikrotikItem)
      (version : string) :
  ReadItems env "/system/resource" m = inr (item :: rest) ->
  item !! "version" = Some version ->
  exec (GetRouterOSVersion env m) st
  = (Returns (if regexp.MatchString version_re version
              then (regexp.FindString version_re version, [])
              else ("", not_found)),
     after_read m st).
Proof.
  intros H Hv. probe_unfold. rewrite H, Hv.
  now destruct (regexp.MatchString version_re version).
Qed.



(** C7, as the code has it. A failed read is reported with the error
    of the read; an empty result set, a first item without a version
    field and a version that the pattern does not match are all
    reported with one and the same diagnostic,
    [RouterOS version not found]. *)
Theorem GetRouterOSVersion_failures :
  (forall err,
     ReadItems env "/system/resource" m = inl err ->
     exec (GetRouterOSVersion env m) st
     = (Returns ("", diag.FromErr err), after_read m st))
  /\ (ReadItems env "/system/resource" m = inr [] ->
      exec (GetRouterOSVersion env m) st
      = (Returns ("", diag.Errorf "RouterOS version not found"),
         after_read m st))
  /\ (forall (item : MikrotikItem) (rest : list MikrotikItem),
        ReadItems env "/system/resource" m = inr (item :: rest) ->
        item !! "version" = None ->
        exec (GetRouterOSVersion env m) st
        = (Returns ("", diag.Errorf "RouterOS version not found"),
           after_read m st))
  /\ (forall (item : MikrotikItem) (rest : list MikrotikItem)
             (version : string),
        ReadItems env "/system/resource" m = inr (item :: rest) ->
        item !! "version" = Some version ->
        ~ has_version_prefix version ->
        exec (GetRouterOSVersion env m) st
        = (Returns ("", diag.Errorf "RouterOS version not found"),
           after_read m st)).
Proof.
  split; [|split; [|split]].
  - apply probe_read_error.
  - apply probe_empty.
  - apply probe_no_field.
  - intros item rest version H Hv Hm.
    rewrite (probe_field _ _ _ H Hv).
    destruct (regexp.MatchString version_re version) eqn:E; [|reflexivity].
    now apply MatchString_version_re in E.
Qed.

End Probe.


Lemma GetRouterOSVersion_failures_witness :
  exec (GetRouterOSVersion (router_env (inl "connection refused"))
          sample_client) initial_state
  = (Returns ("", diag.FromErr "connection refused"),
     after_read sample_client initial_state)
  /\ exec (GetRouterOSVersion (router_env (inr [ {["version" := "abc"]} ]))
             sample_client) initial_state
     = (Returns ("", diag.Errorf "RouterOS version not found"),
        after_read sample_client initial_state).
Proof.
  split.
  - apply (proj1 (GetRouterOSVersion_failures _ sample_client initial_state)).
    reflexivity.
  - apply (proj2 (proj2 (proj2
             (GetRouterOSVersion_failures _ sample_client initial_state)))
             {["version" := "abc"]} [] "abc"); [reflexivity | reflexivity |].
    intros Hprefix. apply MatchString_version_re in Hprefix.
    discriminate Hprefix.
Defined.

(** C7 as stated fails: an empty result set, an item without a version
    field and a version of the wrong shape are three failures with one
    diagnostic. *)
Lemma GetRouterOSVersion_same_diagnostic :
  let empty_set := router_env (inr []) in
  let no_field := router_env (inr [ {["uptime" := "1d2h"]} ]) in
  let bad_shape := router_env (inr [ {["version" := "abc"]} ]) in
  exists diags,
    diags <> []
    /\ fst (exec (GetRouterOSVersion empty_set sample_client) initial_state)
       = Returns ("", diags)
    /\ fst (exec (GetRouterOSVersion no_field sample_client) initial_state)
       = Returns ("", diags)
    /\ fst (exec (GetRouterOSVersion bad_shape sample_client) initial_state)
       = Returns ("", diags).
Proof.
  exists (diag.Errorf "RouterOS version not found").
  split; [discriminate|]. repeat split; reflexivity.
Qed.

(** ** The constructor *)

Section Constructor.

Variable env : Env.

(** *** TLS options *)

Lemma NewClient_tls_conflict (d : ResourceData) (st : State) :
  insecure d = true -> ca_certificate d <> "" ->
  NewClient_tls env d st = (Return (None, conflict_diagnostic), st).
Proof.
  intros Hi Hca. unfold NewClient_tls. simpl tls.InsecureSkipVerify.
  rewrite Hi. apply String.eqb_neq in Hca. rewrite Hca. reflexivity.
Qed.

(** C1. With the insecure flag set and a CA path given, the
    constructor returns the diagnostic of the exclusive options and
    leaves the state as it was: nothing is asked of the file system,
    whatever the CA path names, and no other call is made. *)
Theorem NewClient_conflict_before_io (d : ResourceData) (st : State) :
  insecure d = true -> ca_certificate d <> "" ->
  exec (NewClient env d) st = (Returns (None, conflict_diagnostic), st)
  /\ trace (snd (exec (NewClient env d) st)) = trace st.
Proof.
  intros Hi Hca.
  assert (H : exec (NewClient env d) st
              = (Returns (None, conflict_diagnostic), st)).
  { unfold exec, NewClient, bind.
    now rewrite (NewClient_tls_conflict d st Hi Hca). }
  split; [exact H | now rewrite H].
Qed.

(** *** The router URL *)

Lemma retried_dec (h : string) :
  retried env h
  \/ exists u, url_Parse env h = inr u /\ url.Host u <> "".
Proof.
  unfold retried. destruct (url_Parse env h) as [err|u] eqn:E.
  - left. left. now exists err.
  - destruct (String.eqb_spec (url.Host u) "") as [H0|Hne].
    + left. right. now exists u.
    + right. now exists u.
Qed.

Lemma NewClient_url_direct (d : ResourceData) (st : State) (u : url.URL) :
  url_Parse env (hosturl d) = inr u -> url.Host u <> "" ->
  NewClient_url env d st = (Next (normalised u), st).
Proof.
  intros Hp Hh. unfold NewClient_url. rewrite Hp.
  apply String.eqb_neq in Hh. cbv zeta. rewrite Hh. reflexivity.
Qed.

Lemma NewClient_url_retry (d : ResourceData) (st : State) :
  retried env (hosturl d) ->
  NewClient_url env d st =
    match url_Parse env ("https://" +:+ hosturl d) with
    | inl err => (Return (None, url_parse_diagnostic err (hosturl d)), st)
    | inr u => (Next (normalised u), st)
    end.
Proof.
  intros [(err & Hp) | (u & Hp & Hh)]; unfold NewClient_url; rewrite Hp;
    cbv zeta.
  - now destruct (url_Parse env ("https://" +:+ hosturl d)).
  - rewrite Hh. change (String.eqb "" "") with true. cbv iota.
    now destruct (url_Parse env ("https://" +:+ hosturl d)).
Qed.

(** The URL stage does not touch the state. *)
Lemma NewClient_url_state (d : ResourceData) (st st' : State)
      (x : Step Result url.URL) :
  NewClient_url env d st = (x, st') ->
  st' = st /\ forall s, NewClient_url env d s = (x, s).
Proof.
  intros H. destruct (retried_dec (hosturl d)) as [Hr | (u & Hp & Hh)].
  - rewrite (NewClient_url_retry d st Hr) in H.
    split.
    + destruct (url_Parse env ("https://" +:+ hosturl d));
        now injection H as _ <-.
    + intros s. rewrite (NewClient_url_retry d s Hr).
      destruct (url_Parse env ("https://" +:+ hosturl d));
        now injection H as <- _.
  - rewrite (NewClient_url_direct d st u Hp Hh) in H.
    injection H as <- <-. split; [reflexivity|].
    intros s. now apply NewClient_url_direct.
Qed.

Lemma retried_not_direct (h : string) (u : url.URL) :
  retried env h -> url_Parse env h = inr u -> url.Host u = "".
Proof.
  intros [(err & Hp) | (u' & Hp & Hh)] Hu; rewrite Hp in Hu.
  - discriminate.
  - now injection Hu as <-.
Qed.

(** A failure of the URL stage is what the constructor returns, once
    the TLS options are accepted. *)
Lemma NewClient_url_failure (d : ResourceData) (st0 st st' : State)
      (tlsConf : tls.Config) (r : Result) :
  NewClient_tls env d st0 = (Next tlsConf, st) ->
  NewClient_url env d st = (Return r, st') ->
  exec (NewClient env d) st0 = (Returns r, st).
Proof.
  intros Ht Hu. destruct (NewClient_url_state d _ _ _ Hu) as [-> _].
  unfold exec, NewClient, bind. now rewrite Ht, Hu.
Qed.

(** C3, as the code has it. The URL stage fails exactly when the
    endpoint is parsed again behind [https://] and that parse returns
    an error; it then returns one error diagnostic whose summary is
    the parser's error and whose detail quotes the endpoint, and this
    is what the constructor returns once the TLS options are
    accepted. When the second parse returns a URL, the stage goes on
    with it, with or without a host; when the first parse gives a
    host, the stage goes on with the first URL. *)
Theorem NewClient_url_resolution (d : ResourceData) (st : State) :
  ((exists r st', NewClient_url env d st = (Return r, st'))
   <-> retried env (hosturl d)
       /\ exists err, url_Parse env ("https://" +:+ hosturl d) = inl err)
  /\ (forall r st',
        NewClient_url env d st = (Return r, st') ->
        (exists err,
           url_Parse env ("https://" +:+ hosturl d) = inl err
           /\ r = (None,
                   [ diag.mkDiagnostic diag.Error err
                       ("Error while parsing the router URL: '"
                        +:+ hosturl d +:+ "'") ])
           /\ st' = st)
        /\ (forall st0 tlsConf,
              NewClient_tls env d st0 = (Next tlsConf, st) ->
              exec (NewClient env d) st0 = (Returns r, st)))
  /\ (forall u,
        retried env (hosturl d) ->
        url_Parse env ("https://" +:+ hosturl d) = inr u ->
        NewClient_url env d st = (Next (normalised u), st))
  /\ (forall u,
        url_Parse env (hosturl d) = inr u -> url.Host u <> "" ->
        NewClient_url env d st = (Next (normalised u), st)).
Proof.
  assert (Hret : forall r st',
    NewClient_url env d st = (Return r, st') ->
    retried env (hosturl d) /\
    exists err,
      url_Parse env ("https://" +:+ hosturl d) = inl err
      /\ r = (None, url_parse_diagnostic err (hosturl d)) /\ st' = st).
  { intros r st' H.
    destruct (retried_dec (hosturl d)) as [Hr | (u & Hp & Hh)].
    - split; [exact Hr|]. rewrite (NewClient_url_retry d st Hr) in H.
      destruct (url_Parse env ("https://" +:+ hosturl d)) as [err|u];
        [|discriminate].
      injection H as <- <-. now exists err.
    - rewrite (NewClient_url_direct d st u Hp Hh) in H. discriminate. }
  split; [|split; [|split]].
  - split.
    + intros (r & st' & H). destruct (Hret r st' H) as (Hr & err & He & _).
      split; [exact Hr | now exists err].
    + intros (Hr & err & He). rewrite (NewClient_url_retry d st Hr), He.
      now eexists _, _.
  - intros r st' H. split.
    + destruct (Hret r st' H) as (_ & err & He & -> & ->). now exists err.
    + intros st0 tlsConf Ht.
      exact (NewClient_url_failure d st0 st st' tlsConf r Ht H).
  - intros u Hr Hu. now rewrite (NewClient_url_retry d st Hr), Hu.
  - intros u. apply NewClient_url_direct.
Qed.

(** C2, as the code has it. The URL that the constructor goes on
    with is a parsed URL whose path has lost one trailing separator:
    a path that does not end in [/] is kept, and a path [p/] becomes
    [p], whatever [p] ends in. *)
Theorem NewClient_url_path (d : ResourceData) (st st' : State)
        (u : url.URL) :
  NewClient_url env d st = (Next u, st') ->
  exists parsed,
    (url_Parse env (hosturl d) = inr parsed
     \/ url_Parse env ("https://" +:+ hosturl d) = inr parsed)
    /\ u = url.set_Path parsed (url.Path u)
    /\ (strings.HasSuffix (url.Path parsed) "/" = false ->
        url.Path u = url.Path parsed)
    /\ (forall p, url.Path parsed = p +:+ "/" -> url.Path u = p).
Proof.
  intros H.
  assert (Hn : exists parsed,
    (url_Parse env (hosturl d) = inr parsed
     \/ url_Parse env ("https://" +:+ hosturl d) = inr parsed)
    /\ u = normalised parsed).
  { destruct (retried_dec (hosturl d)) as [Hr | (p & Hp & Hh)].
    - rewrite (NewClient_url_retry d st Hr) in H.
      destruct (url_Parse env ("https://" +:+ hosturl d)) as [err|p];
        [discriminate|].
      injection H as <- _. exists p. auto.
    - rewrite (NewClient_url_direct d st p Hp Hh) in H.
      injection H as <- _. exists p. auto. }
  destruct Hn as (parsed & Hp & ->). exists parsed.
  split; [exact Hp|]. split; [reflexivity|]. simpl. split.
  - apply TrimSuffix_no_suffix.
  - intros p ->. apply TrimSuffix_char_same.
Qed.

End Constructor.

(** *** Ports *)








(** *** Schemes *)


Ltac tls_unfold :=
  unfold NewClient_tls, Stat, ReadFile, ColorizedDebug, bind, emit, pure, ret.


Section Schemes.

Variable env : Env.
Variable d : ResourceData.


End Schemes.

(** ** The statements at work on the sample environment *)

Lemma NewClient_conflict_before_io_witness :
  let d := mkResourceData true "/nonexistent/ca.pem" "https://router.lan"
             "admin" "secret" "" false 10 in
  os_Stat sample_env (ca_certificate d) <> None
  /\ exec (NewClient sample_env d) initial_state
     = (Returns (None, conflict_diagnostic), initial_state).
Proof.
  split; [discriminate|].
  apply (NewClient_conflict_before_io sample_env
           (mkResourceData true "/nonexistent/ca.pem" "https://router.lan"
              "admin" "secret" "" false 10) initial_state);
    [reflexivity | discriminate].
Defined.

Lemma NewClient_url_path_witness :
  exists u,
    NewClient_url sample_env (sample_config "https://router.lan/rest/")
      initial_state = (Next u, initial_state)
    /\ exists parsed,
         (url_Parse sample_env "https://router.lan/rest/" = inr parsed
          \/ url_Parse sample_env "https://https://router.lan/rest/"
              = inr parsed)
         /\ (forall p, url.Path parsed = p +:+ "/" -> url.Path u = p).
Proof.
  eexists. split; [reflexivity|].
  destruct (NewClient_url_path sample_env
              (sample_config "https://router.lan/rest/")
              initial_state initial_state _ eq_refl)
    as (parsed & Hp & _ & _ & Hpath).
  exists parsed. split; [exact Hp | exact Hpath].
Defined.

Lemma NewClient_url_resolution_witness :
  (retried sample_env "192.168.88.1:8729"
   /\ exists u,
        NewClient_url sample_env (sample_config "192.168.88.1:8729")
          initial_state = (Next (normalised u), initial_state)
        /\ url.Scheme u = "https" /\ url.Host u = "192.168.88.1:8729")
  /\ (retried sample_env "router.lan:abc"
      /\ exists r st',
           NewClient_url sample_env (sample_config "router.lan:abc")
             initial_state = (Return r, st')).
Proof.
  assert (Hr : retried sample_env "192.168.88.1:8729").
  { left. eexists. reflexivity. }
  assert (Hr' : retried sample_env "router.lan:abc").
  { right. eexists. split; reflexivity. }
  split; (split; [assumption|]).
  - eexists. split.
    + apply (proj1 (proj2 (proj2 (NewClient_url_resolution sample_env
               (sample_config "192.168.88.1:8729") initial_state)))).
      * exact Hr.
      * reflexivity.
    + split; reflexivity.
  - apply (proj1 (NewClient_url_resolution sample_env
             (sample_config "router.lan:abc") initial_state)).
    split; [exact Hr'|]. eexists. reflexivity.
Defined.

(** C3 as stated fails. The empty endpoint has no scheme, and behind
    [https://] it parses to a URL without a host; all the same the URL
    stage goes on, and the constructor returns a REST client. *)
Lemma NewClient_url_accepts_empty_host :
  let d := sample_config "" in
  net_url.getScheme (hosturl d) = inr ("", "")
  /\ ~ ((exists u st', NewClient_url sample_env d initial_state = (Next u, st'))
        <-> (exists u, url_Parse sample_env ("https://" +:+ hosturl d) = inr u
                       /\ url.Host u <> ""))
  /\ exists c st',
       exec (NewClient sample_env d) initial_state = (Returns (Some c, []), st').
Proof.
  split; [reflexivity|]. split.
  - intros [H _].
    destruct H as (u & Hu & Hh); [eexists _, _; reflexivity|].
    apply Hh. vm_compute in Hu.
    now injection Hu as <-.
  - eexists _, _. reflexivity.
Qed.



(** * Further properties *)

(** ** Escaping *)

(** X1. Escaping goes piece by piece: the escape of two byte sequences
    put together is the two escapes put together. *)
Theorem EscapeChars_app (a b : list byte) :
  EscapeChars (a ++ b) = EscapeChars a ++ EscapeChars b.
Proof. rewrite !EscapeChars_image. apply bind_app. Qed.

Lemma EscapeChars_printable (data : list byte) :
  Forall (fun b => is_control b = false) (EscapeChars data).
Proof.
  rewrite EscapeChars_image. apply Forall_bind.
  apply Forall_forall. intros ch _. apply escape_image_printable.
Qed.

(** X2. The inputs that escaping leaves as they are, are exactly the
    inputs without a byte below [0x20]. *)
Theorem EscapeChars_unchanged_iff (data : list byte) :
  EscapeChars data = data <-> Forall (fun b => is_control b = false) data.
Proof.
  split.
  - intros H. rewrite <- H. apply EscapeChars_printable.
  - intros H. rewrite EscapeChars_image. now apply bind_escape_image_plain.
Qed.

(** X3. The backslash is not escaped, so escaping cannot be undone: a
    control byte, and the six characters of its escape written out in
    its place, are different inputs with the same output. *)
Theorem EscapeChars_not_injective (a b : list byte) (ch : byte) :
  is_control ch = true ->
  a ++ [ch] ++ b <> a ++ escape_image ch ++ b
  /\ EscapeChars (a ++ [ch] ++ b) = EscapeChars (a ++ escape_image ch ++ b).
Proof.
  intros Hc. split.
  - intros Heq. apply (f_equal length) in Heq.
    destruct (escape_image_control ch Hc) as (h3 & h2 & h1 & h0 & Hi & _).
    rewrite Hi, !length_app in Heq. simpl in Heq. lia.
  - rewrite !EscapeChars_image, !bind_app. f_equal. f_equal.
    rewrite (bind_escape_image_plain (escape_image ch))
      by apply escape_image_printable.
    rewrite bind_cons. apply app_nil_r.
Qed.

Lemma EscapeChars_not_injective_witness :
  [x61; x0a; x62] <> [x61; x5c; x75; x30; x30; x30; x61; x62]
  /\ EscapeChars [x61; x0a; x62]
     = EscapeChars [x61; x5c; x75; x30; x30; x30; x61; x62].
Proof.
  exact (EscapeChars_not_injective [x61] [x62] x0a eq_refl).
Defined.

(** ** REST addressing *)

(** X4. What [GetRestURL] renders is the path alone when the joined
    query is empty, in particular for an empty fragment list, and
    otherwise the path followed by a query part that begins with [?];
    it is longer than path and joined query together by one character
    at most. *)
Theorem GetRestURL_shape (u : URL) :
  exists q,
    GetRestURL u = Path u +:+ q
    /\ (q = "" <-> strings.Join (Query u) "&" = "")
    /\ (q = "" \/ strings.HasPrefix q "?" = true)
    /\ (String.length (GetRestURL u)
        <= String.length (Path u)
           + String.length (strings.Join (Query u) "&") + 1)%nat
    /\ (Query u = [] -> GetRestURL u = Path u).
Proof.
  unfold GetRestURL. cbv zeta.
  destruct (strings.Join (Query u) "&") as [|c q'] eqn:Hq.
  - exists "". rewrite append_empty_r.
    split; [reflexivity|]. split; [tauto|]. split; [now left|].
    split; [change (String.length "") with 0%nat; lia | reflexivity].
  - assert (Hnil : Query u <> []).
    { intros Hnil. rewrite Hnil in Hq. discriminate Hq. }
    destruct (Ascii.eqb_spec c "?") as [->|Hne]; cbn [negb].
    + exists (String "?" q').
      split; [reflexivity|]. split; [split; discriminate|].
      split; [right; apply HasPrefix_char|].
      split; [rewrite length_append; lia | contradiction].
    + exists ("?" +:+ String c q').
      split; [reflexivity|]. split; [split; discriminate|].
      split; [right; apply HasPrefix_char|].
      split; [|contradiction].
      rewrite length_append.
      change (String.length ("?" +:+ String c q'))
        with (S (String.length (String c q'))).
      lia.
Qed.

(** ** The version probe, further *)

Section RegexpExact.

Import regexp.

Local Abbreviation digit := (CharClass is_digit).
Local Abbreviation group := (Capture (Concat (Plus digit) (Literal "."))).

Lemma run_plus_digit_cons (t : string) (c : ascii) (s : string) :
  is_digit c = true ->
  run t (Plus digit) (String c s) = run t (Plus digit) s ++ [s].
Proof.
  intros Hc. cbn [run]. cbn [plus_loop]. rewrite Hc, bind_cons.
  change ([] ≫= _) with (@nil string). rewrite app_nil_r.
  cbn [String.length].
  now rewrite (proj2 (Nat.ltb_lt _ _) (Nat.lt_succ_diag_r (String.length s))).
Qed.

Lemma run_plus_digit_none (t s : string) :
  starts_with_digit s = false -> run t (Plus digit) s = [].
Proof.
  intros Hs. cbn [run plus_loop].
  destruct s as [|c s]; [reflexivity|].
  cbn [starts_with_digit] in Hs. now rewrite Hs.
Qed.

(** The preferred way to match digits takes all of them. *)
Lemma run_plus_digit_head (t x rest : string) :
  is_number x = true -> starts_with_digit rest = false ->
  exists l, run t (Plus digit) (x +:+ rest) = rest :: l.
Proof.
  unfold is_number. intros Hx Hrest.
  apply andb_true_iff in Hx. destruct Hx as [Hne Hx].
  induction x as [|c x IH]; [discriminate Hne|]. clear Hne.
  cbn [all_digits] in Hx. apply andb_true_iff in Hx. destruct Hx as [Hc Hx].
  rewrite append_cons, (run_plus_digit_cons _ _ _ Hc).
  destruct x as [|c' x'].
  - rewrite append_empty_l, (run_plus_digit_none _ _ Hrest). now exists [].
  - destruct (IH eq_refl Hx) as [l ->]. now eexists.
Qed.

Lemma literal_after_digit (t : string) (c : ascii) (s : string) :
  is_digit c = true -> run t (Literal ".") (String c s) = [].
Proof.
  intros Hc. cbn [run].
  destruct (Ascii.eqb_spec c ".") as [->|_]; [discriminate Hc | reflexivity].
Qed.

Lemma run_digits_then_dot (t x rest : string) :
  all_digits x = true -> starts_with_digit rest = false ->
  run t (Plus digit) (x +:+ rest) ≫= run t (Literal ".")
  = match x with
    | EmptyString => []
    | String _ _ => run t (Literal ".") rest
    end.
Proof.
  intros Hx Hrest. induction x as [|c x IH].
  - now rewrite append_empty_l, (run_plus_digit_none _ _ Hrest).
  - cbn [all_digits] in Hx. apply andb_true_iff in Hx.
    destruct Hx as [Hc Hx]. specialize (IH Hx).
    rewrite append_cons, (run_plus_digit_cons _ _ _ Hc), bind_app, IH.
    rewrite bind_cons. change ([] ≫= _) with (@nil string).
    rewrite app_nil_r. destruct x as [|c' x'].
    + now rewrite append_empty_l.
    + cbn [all_digits] in Hx. apply andb_true_iff in Hx.
      rewrite append_cons, (literal_after_digit _ _ _ (proj1 Hx)).
      apply app_nil_r.
Qed.

Lemma run_Concat (t : string) (r1 r2 : syntax) (s : string) :
  run t (Concat r1 r2) s = run t r1 s ≫= run t r2.
Proof. reflexivity. Qed.

Lemma run_Quest (t : string) (r : syntax) (s : string) :
  run t (Quest r) s = run t r s ++ [s].
Proof. reflexivity. Qed.

Lemma bind_EmptyMatch (t : string) (l : list string) :
  l ≫= run t EmptyMatch = l.
Proof.
  induction l as [|e l IH]; [reflexivity|].
  rewrite bind_cons, IH. reflexivity.
Qed.

Lemma bind_single (t : string) (r : syntax) (s : string) :
  [s] ≫= run t r = run t r s.
Proof.
  rewrite bind_cons. change ([] ≫= run t r) with (@nil string).
  apply app_nil_r.
Qed.

(** One group [\d+\.] on a number followed by text that does not go on
    with a digit: it matches when a dot follows, in one way. *)
Lemma run_group (t x rest : string) :
  is_number x = true -> starts_with_digit rest = false ->
  run t (Concat group EmptyMatch) (x +:+ rest) = run t (Literal ".") rest.
Proof.
  unfold is_number. intros Hx Hrest.
  apply andb_true_iff in Hx. destruct Hx as [Hne Hx].
  rewrite run_Concat, bind_EmptyMatch.
  change (run t group (x +:+ rest))
    with (run t (Concat (Plus digit) (Literal ".")) (x +:+ rest)).
  rewrite run_Concat, (run_digits_then_dot t x rest Hx Hrest).
  destruct x as [|c x]; [discriminate Hne | reflexivity].
Qed.

Lemma run_group_dot (t x rest : string) :
  is_number x = true ->
  run t (Concat group EmptyMatch) (x +:+ "." +:+ rest) = [rest].
Proof. intros Hx. now rewrite (run_group t x ("." +:+ rest) Hx eq_refl). Qed.

(** What [FindString] returns, given the preferred match at the start. *)
Lemma FindString_prefix (r : syntax) (w tail : string) (l : list string) :
  run (w +:+ tail) r (w +:+ tail) = tail :: l ->
  MatchString (Concat BeginText r) (w +:+ tail) = true
  /\ FindString (Concat BeginText r) (w +:+ tail) = w.
Proof.
  intros H. unfold MatchString, FindString.
  rewrite search_at_start, run_at_start, H. split; [reflexivity|].
  rewrite length_append, Nat.add_sub. apply substring_append_l.
Qed.

(** The pattern without its anchor. *)
Local Abbreviation body :=
  (Concat (Concat (Concat group EmptyMatch)
             (Quest (Concat group EmptyMatch)))
     (Plus digit)).

Lemma run_body_three (t x y z tail : string) :
  is_number x = true -> is_number y = true -> is_number z = true ->
  starts_with_digit tail = false ->
  exists l,
    run t body (x +:+ "." +:+ y +:+ "." +:+ z +:+ tail) = tail :: l.
Proof.
  intros Hx Hy Hz Htail.
  destruct (run_plus_digit_head t z tail Hz Htail) as [l Hl].
  rewrite (run_Concat t (Concat _ _) (Plus digit)).
  rewrite (run_Concat t (Concat group EmptyMatch) (Quest _)).
  rewrite (run_group_dot t x _ Hx), bind_single, run_Quest.
  rewrite (run_group_dot t y _ Hy).
  change ([z +:+ tail] ++ [y +:+ "." +:+ z +:+ tail])
    with ((z +:+ tail) :: [y +:+ "." +:+ z +:+ tail]).
  rewrite bind_cons, Hl. now eexists.
Qed.

Lemma run_body_two (t x y tail : string) :
  is_number x = true -> is_number y = true ->
  starts_with_digit tail = false -> starts_component tail = false ->
  exists l, run t body (x +:+ "." +:+ y +:+ tail) = tail :: l.
Proof.
  intros Hx Hy Htail Hthird.
  destruct (run_plus_digit_head t y tail Hy Htail) as [l Hl].
  rewrite (run_Concat t (Concat _ _) (Plus digit)).
  rewrite (run_Concat t (Concat group EmptyMatch) (Quest _)).
  rewrite (run_group_dot t x _ Hx), bind_single, run_Quest.
  rewrite (run_group t y tail Hy Htail).
  assert (Hnone : run t (Literal ".") tail ≫= run t (Plus digit) = []).
  { destruct tail as [|c tail']; [reflexivity|].
    change (run t (Literal ".") (String c tail'))
      with (if Ascii.eqb c "." then [tail'] else []).
    cbn [starts_component] in Hthird.
    destruct (Ascii.eqb c "."); [|reflexivity].
    cbn [andb] in Hthird.
    now rewrite bind_single, (run_plus_digit_none _ _ Hthird). }
  rewrite bind_app, Hnone, bind_single, Hl. now eexists.
Qed.

(** Three components are taken when three are there. *)
Lemma version_re_three (x y z tail : string) :
  is_number x = true -> is_number y = true -> is_number z = true ->
  starts_with_digit tail = false ->
  MatchString version_re (x +:+ "." +:+ y +:+ "." +:+ z +:+ tail) = true
  /\ FindString version_re (x +:+ "." +:+ y +:+ "." +:+ z +:+ tail)
     = x +:+ "." +:+ y +:+ "." +:+ z.
Proof.
  intros Hx Hy Hz Htail.
  assert (E : x +:+ "." +:+ y +:+ "." +:+ z +:+ tail
              = (x +:+ "." +:+ y +:+ "." +:+ z) +:+ tail)
    by now rewrite !append_assoc.
  destruct (run_body_three (x +:+ "." +:+ y +:+ "." +:+ z +:+ tail)
              x y z tail Hx Hy Hz Htail) as [l Hl].
  rewrite E in Hl |- *.
  exact (FindString_prefix body _ _ l Hl).
Qed.

(** Two components are taken when no third one follows. *)
Lemma version_re_two (x y tail : string) :
  is_number x = true -> is_number y = true ->
  starts_with_digit tail = false -> starts_component tail = false ->
  MatchString version_re (x +:+ "." +:+ y +:+ tail) = true
  /\ FindString version_re (x +:+ "." +:+ y +:+ tail) = x +:+ "." +:+ y.
Proof.
  intros Hx Hy Htail Hthird.
  assert (E : x +:+ "." +:+ y +:+ tail = (x +:+ "." +:+ y) +:+ tail)
    by now rewrite !append_assoc.
  destruct (run_body_two (x +:+ "." +:+ y +:+ tail)
              x y tail Hx Hy Htail Hthird) as [l Hl].
  rewrite E in Hl |- *.
  exact (FindString_prefix body _ _ l Hl).
Qed.

End RegexpExact.

Section ProbeFurther.

Variable env : Env.
Variable m : Client.
Variable st : State.

(** X5. The probe makes exactly one read, of [/system/resource], and
    does not touch [RouterOSVersion]. It returns either a version of
    the shape [X.Y] or [X.Y.Z] and no diagnostic, or the empty string
    and a single error diagnostic; never a version together with a
    diagnostic, and never neither. *)
Theorem GetRouterOSVersion_outcome :
  exists v diags,
    exec (GetRouterOSVersion env m) st = (Returns (v, diags), after_read m st)
    /\ ((diags = [] /\ version_shape v)
        \/ (v = "" /\ exists msg,
              diags = [diag.mkDiagnostic diag.Error msg ""])).
Proof.
  destruct (ReadItems env "/system/resource" m) as [err|[|item rest]] eqn:H.
  - exists "", (diag.FromErr err). split; [now apply probe_read_error|].
    right. split; [reflexivity | now exists err].
  - exists "", not_found. split; [now apply probe_empty|].
    right. split; [reflexivity | now eexists].
  - destruct (item !! "version") as [version|] eqn:Hv.
    + destruct (regexp.MatchString version_re version) eqn:Hm.
      * exists (regexp.FindString version_re version), [].
        split; [now rewrite (probe_field env m st _ _ _ H Hv), Hm|].
        left. split; [reflexivity|].
        destruct (FindString_anchored _ _ Hm) as (tail & _ & Hmatch).
        now apply matches_version_re.
      * exists "", not_found.
        split; [now rewrite (probe_field env m st _ _ _ H Hv), Hm|].
        right. split; [reflexivity | now eexists].
    + exists "", not_found. split; [now apply (probe_no_field env m st item rest)|].
      right. split; [reflexivity | now eexists].
Qed.

(** X7. A version field that begins with three numeric components is
    not cut short: for a field [X.Y.Z] followed by text that does not
    go on with a digit, the probe returns [X.Y.Z]. *)
Theorem GetRouterOSVersion_three_components
        (item : MikrotikItem) (rest : list MikrotikItem)
        (x y z tail : string) :
  ReadItems env "/system/resource" m = inr (item :: rest) ->
  item !! "version" = Some (x +:+ "." +:+ y +:+ "." +:+ z +:+ tail) ->
  is_number x = true -> is_number y = true -> is_number z = true ->
  starts_with_digit tail = false ->
  exec (GetRouterOSVersion env m) st
  = (Returns (x +:+ "." +:+ y +:+ "." +:+ z, []), after_read m st).
Proof.
  intros H Hv Hx Hy Hz Htail.
  destruct (version_re_three x y z tail Hx Hy Hz Htail) as [Hm Hf].
  now rewrite (probe_field env m st _ _ _ H Hv), Hm, Hf.
Qed.

(** X8. A version field that begins with two numeric components and
    does not go on with a digit or with a dot and a digit gives
    exactly those two: the probe returns [X.Y], with all the digits of
    [Y]. *)
Theorem GetRouterOSVersion_two_components
        (item : MikrotikItem) (rest : list MikrotikItem)
        (x y tail : string) :
  ReadItems env "/system/resource" m = inr (item :: rest) ->
  item !! "version" = Some (x +:+ "." +:+ y +:+ tail) ->
  is_number x = true -> is_number y = true ->
  starts_with_digit tail = false -> starts_component tail = false ->
  exec (GetRouterOSVersion env m) st
  = (Returns (x +:+ "." +:+ y, []), after_read m st).
Proof.
  intros H Hv Hx Hy Htail Hthird.
  destruct (version_re_two x y tail Hx Hy Htail Hthird) as [Hm Hf].
  now rewrite (probe_field env m st _ _ _ H Hv), Hm, Hf.
Qed.

End ProbeFurther.

(** X6. The probe looks at the first item only, and there at the
    version field only: two result sets whose first items agree on
    that field give the same result. *)
Theorem GetRouterOSVersion_first_item_only
        (env1 env2 : Env) (m : Client) (st : State)
        (item1 item2 : MikrotikItem) (rest1 rest2 : list MikrotikItem) :
  ReadItems env1 "/system/resource" m = inr (item1 :: rest1) ->
  ReadItems env2 "/system/resource" m = inr (item2 :: rest2) ->
  item1 !! "version" = item2 !! "version" ->
  exec (GetRouterOSVersion env1 m) st = exec (GetRouterOSVersion env2 m) st.
Proof.
  intros H1 H2 Hv. destruct (item2 !! "version") as [version|] eqn:Hv2.
  - now rewrite (probe_field env1 m st _ _ _ H1 Hv),
      (probe_field env2 m st _ _ _ H2 Hv2).
  - now rewrite (probe_no_field env1 m st _ _ H1 Hv),
      (probe_no_field env2 m st _ _ H2 Hv2).
Qed.

Lemma GetRouterOSVersion_three_components_witness :
  exec (GetRouterOSVersion
          (router_env (inr [ {["version" := "6.48.6 (long-term)"]} ]))
          sample_client) initial_state
  = (Returns ("6.48.6", []), after_read sample_client initial_state).
Proof.
  exact (GetRouterOSVersion_three_components
           (router_env (inr [ {["version" := "6.48.6 (long-term)"]} ]))
           sample_client initial_state
           {["version" := "6.48.6 (long-term)"]} []
           "6" "48" "6" " (long-term)"
           eq_refl eq_refl eq_refl eq_refl eq_refl eq_refl).
Defined.

Lemma GetRouterOSVersion_two_components_witness :
  exec (GetRouterOSVersion
          (router_env (inr [ {["version" := "7.14.beta3"]} ]))
          sample_client) initial_state
  = (Returns ("7.14", []), after_read sample_client initial_state).
Proof.
  exact (GetRouterOSVersion_two_components
           (router_env (inr [ {["version" := "7.14.beta3"]} ]))
           sample_client initial_state
           {["version" := "7.14.beta3"]} []
           "7" "14" ".beta3"
           eq_refl eq_refl eq_refl eq_refl eq_refl eq_refl).
Defined.

Lemma GetRouterOSVersion_first_item_only_witness :
  exec (GetRouterOSVersion
          (router_env (inr [ {["version" := "7.1"]}; {["version" := "6.0"]} ]))
          sample_client) initial_state
  = exec (GetRouterOSVersion
            (router_env (inr [ <["uptime" := "3w"]> {["version" := "7.1"]} ]))
            sample_client) initial_state.
Proof.
  apply (GetRouterOSVersion_first_item_only
           (router_env (inr [ {["version" := "7.1"]}; {["version" := "6.0"]} ]))
           (router_env (inr [ <["uptime" := "3w"]> {["version" := "7.1"]} ]))
           sample_client initial_state
           {["version" := "7.1"]} (<["uptime" := "3w"]> {["version" := "7.1"]})
           [ {["version" := "6.0"]} ] []);
    reflexivity.
Defined.

(** ** The constructor, further *)

Section ConstructorFurther.

Variable env : Env.
Variable d : ResourceData.

(** *** The TLS options *)

(** Without a CA path the TLS stage does not touch the file system:
    the TLS configuration has no certificate pool and skips
    verification exactly when the insecure flag is set. *)
Lemma NewClient_tls_without_ca (st : State) :
  ca_certificate d = "" ->
  NewClient_tls env d st = (Next (tls.mkConfig (insecure d) None), st).
Proof.
  intros Hca. unfold NewClient_tls. rewrite Hca.
  change (String.eqb "" "") with true. cbn [negb].
  now rewrite andb_false_r.
Qed.

(** X9. With a CA path and without the insecure flag, a file that can
    be examined and read is examined first and read second, and its
    content is all that goes into the certificate pool; verification
    stays on. *)
Theorem NewClient_tls_with_ca (st : State) (file : list byte) :
  insecure d = false -> ca_certificate d <> "" ->
  os_Stat env (ca_certificate d) = None ->
  os_ReadFile env (ca_certificate d) = inr file ->
  NewClient_tls env d st
  = (Next (tls.mkConfig false (Some [file])),
     logged st [EvStat (ca_certificate d); EvReadFile (ca_certificate d)]).
Proof.
  intros Hi Hca Hstat Hread. tls_unfold. cbn [tls.InsecureSkipVerify].
  rewrite Hi. apply String.eqb_neq in Hca. rewrite Hca. cbn [andb negb].
  rewrite Hstat. cbn [trace RouterOSVersion]. rewrite Hread.
  unfold logged. now rewrite <- app_assoc.
Qed.

(** X10. When the CA file cannot be examined, the constructor returns
    the error of [os.Stat] as its diagnostic after one debug line; it
    does not try to read the file, parses no URL, makes no connection
    and leaves [RouterOSVersion] alone. *)
Theorem NewClient_ca_stat_failure (st : State) (err : error) :
  insecure d = false -> ca_certificate d <> "" ->
  os_Stat env (ca_certificate d) = Some err ->
  exec (NewClient env d) st
  = (Returns (None, diag.FromErr err),
     logged st [EvStat (ca_certificate d);
                EvDebug ("Failed to read CA file '" +:+ ca_certificate d
                         +:+ "', error: " +:+ err)]).
Proof.
  intros Hi Hca Hstat. unfold exec, NewClient, bind at 1 2 3.
  tls_unfold. cbn [tls.InsecureSkipVerify].
  rewrite Hi. apply String.eqb_neq in Hca. rewrite Hca. cbn [andb negb].
  rewrite Hstat. cbn [trace RouterOSVersion].
  unfold logged. now rewrite <- app_assoc.
Qed.

(** X11. When the CA file can be examined but not read, the
    constructor returns a diagnostic that names the file and the error
    of [os.ReadFile], after one debug line; it goes no further. *)
Theorem NewClient_ca_read_failure (st : State) (err : error) :
  insecure d = false -> ca_certificate d <> "" ->
  os_Stat env (ca_certificate d) = None ->
  os_ReadFile env (ca_certificate d) = inl err ->
  exec (NewClient env d) st
  = (Returns (None,
              diag.Errorf ("Failed to read CA file '" +:+ ca_certificate d
                           +:+ "', " +:+ err)),
     logged st [EvStat (ca_certificate d); EvReadFile (ca_certificate d);
                EvDebug ("Failed to read CA file '" +:+ ca_certificate d
                         +:+ "', error: " +:+ err)]).
Proof.
  intros Hi Hca Hstat Hread. unfold exec, NewClient, bind at 1 2 3.
  tls_unfold. cbn [tls.InsecureSkipVerify].
  rewrite Hi. apply String.eqb_neq in Hca. rewrite Hca. cbn [andb negb].
  rewrite Hstat. cbn [trace RouterOSVersion]. rewrite Hread.
  cbn [trace RouterOSVersion].
  unfold logged. now rewrite <- !app_assoc.
Qed.


(** *** Past the scheme switch *)

Lemma NewClient_probe_cases (c : Client) (st : State) :
  probe_result env c st (NewClient_probe env c st).
Proof.
  unfold NewClient_probe, bind at 1, get_RouterOSVersion.
  destruct (String.eqb_spec (RouterOSVersion st) "") as [Hv | Hv];
    [|now apply probe_skipped].
  unfold bind at 1, call.
  assert (Hst : after_read c st = logged st [EvReadItems "/system/resource" c])
    by reflexivity.
  destruct (ReadItems env "/system/resource" c) as [err|[|item rest]] eqn:H.
  - pose proof (probe_read_error env c st err H) as E. unfold exec in E.
    destruct (GetRouterOSVersion env c st) as [[a|a|msg] s];
      try discriminate E; injection E as -> ->; rewrite Hst;
      now apply probe_failed.
  - pose proof (probe_empty env c st H) as E. unfold exec in E.
    destruct (GetRouterOSVersion env c st) as [[a|a|msg] s];
      try discriminate E; injection E as -> ->; rewrite Hst;
      now apply probe_failed.
  - destruct (item !! "version") as [version|] eqn:Hf.
    + pose proof (probe_field env c st item rest version H Hf) as E.
      unfold exec in E.
      destruct (regexp.MatchString version_re version) eqn:Hm.
      * destruct (FindString_anchored _ _ Hm) as (tail & _ & Hmatch).
        apply matches_version_re in Hmatch.
        destruct (GetRouterOSVersion env c st) as [[a|a|msg] s];
          try discriminate E; injection E as -> ->;
          unfold set_RouterOSVersion, ColorizedMessage, bind, emit;
          cbn [trace RouterOSVersion after_read];
          rewrite <- app_assoc; now apply probe_set.
      * destruct (GetRouterOSVersion env c st) as [[a|a|msg] s];
          try discriminate E; injection E as -> ->; rewrite Hst;
          now apply probe_failed.
    + pose proof (probe_no_field env c st item rest H Hf) as E.
      unfold exec in E.
      destruct (GetRouterOSVersion env c st) as [[a|a|msg] s];
        try discriminate E; injection E as -> ->; rewrite Hst;
        now apply probe_failed.
Qed.

(** The constructor on a router URL for the REST transport. *)
Lemma NewClient_rest_run (st st1 : State) (tlsConf : tls.Config)
      (u u' : url.URL) (useTLS : bool) :
  NewClient_tls env d st = (Next tlsConf, st1) ->
  NewClient_url env d st1 = (Next u, st1) ->
  NewClient_transport u st1 = (Next (u', useTLS, TransportREST), st1) ->
  exec (NewClient env d) st
  = after_probe (Rest (rest_client env d tlsConf u'))
      (NewClient_probe env (Rest (rest_client env d tlsConf u'))
         (configured d st1)).
Proof.
  intros Ht Hu Hs. unfold exec, NewClient, bind at 1 2 3.
  rewrite Ht, Hu, Hs.
  unfold bind at 1 2, set_RouterOSVersion.
  unfold configured, version_note, ColorizedMessage, emit, pure.
  destruct (negb (String.eqb (routeros_version d) ""));
    cbn [trace RouterOSVersion]; rewrite ?app_nil_r;
    unfold bind, ret, after_probe, rest_client;
    cbn [rest_HostURL rest_Username rest_Password rest_Transport rest_extra];
    match goal with
    | |- context [NewClient_probe env ?c ?s] =>
        destruct (NewClient_probe env c s) as [[[]|r|msg] s2]; reflexivity
    end.
Qed.

(** The constructor on a router URL for the binary transport. *)
Lemma NewClient_api_run (st st1 : State) (tlsConf : tls.Config)
      (u u' : url.URL) (useTLS : bool) :
  NewClient_tls env d st = (Next tlsConf, st1) ->
  NewClient_url env d st1 = (Next u, st1) ->
  NewClient_transport u st1 = (Next (u', useTLS, TransportAPI), st1) ->
  exec (NewClient env d) st
  = match routeros_Dial env (api_session d tlsConf u' useTLS) with
    | Some err =>
        (Returns (None, diag.FromErr err),
         logged (configured d st1) [EvDial (api_session d tlsConf u' useTLS)])
    | None =>
        after_probe (Api (api_client d tlsConf u' useTLS))
          (NewClient_probe env (Api (api_client d tlsConf u' useTLS))
             (logged (configured d st1)
                [EvDial (api_session d tlsConf u' useTLS); EvAsync]))
    end.
Proof.
  intros Ht Hu Hs. unfold exec, NewClient, bind at 1 2 3.
  rewrite Ht, Hu, Hs.
  unfold bind at 1 2, set_RouterOSVersion.
  unfold configured, version_note, ColorizedMessage, emit, pure, logged.
  cbn [api_HostURL api_Username api_Password api_Transport api_extra].
  fold (api_session d tlsConf u' useTLS).
  fold (api_client d tlsConf u' useTLS).
  unfold Dial, bind at 1 2, emit, pure.
  destruct (negb (String.eqb (routeros_version d) ""));
    cbn [trace RouterOSVersion]; rewrite ?app_nil_r;
    (destruct (routeros_Dial env (api_session d tlsConf u' useTLS));
     [reflexivity|]);
    unfold bind, ret, emit, after_probe; cbn [trace RouterOSVersion];
    rewrite <- !app_assoc; cbn [app];
    match goal with
    | |- context [NewClient_probe env ?c ?s] =>
        destruct (NewClient_probe env c s) as [[[]|r|msg] s2]; reflexivity
    end.
Qed.


Lemma NewClient_transport_cases (u : url.URL) (st : State) :
  (exists u' useTLS transport,
     NewClient_transport u st = (Next (u', useTLS, transport), st)
     /\ (transport = TransportREST
         <-> url.Scheme u = "http" \/ url.Scheme u = "https")
     /\ (transport = TransportREST -> u' = u))
  \/ (exists msg, NewClient_transport u st = (Panic msg, st)).
Proof.
  unfold NewClient_transport.
  destruct (String.eqb_spec (url.Scheme u) "http") as [H1|H1].
  { left. exists u, true, TransportREST. repeat split; auto. }
  destruct (String.eqb_spec (url.Scheme u) "https") as [H2|H2].
  { left. exists u, true, TransportREST. repeat split; auto. }
  destruct (String.eqb_spec (url.Scheme u) "apis") as [H3|H3].
  { left. eexists _, true, TransportAPI. split; [reflexivity|].
    split; [|discriminate]. split; [discriminate | tauto]. }
  destruct (String.eqb_spec (url.Scheme u) "api") as [H4|H4].
  { left. eexists _, false, TransportAPI. split; [reflexivity|].
    split; [|discriminate]. split; [discriminate | tauto]. }
  right. now eexists.
Qed.

Lemma NewClient_transport_rest (u : url.URL) (st : State) :
  url.Scheme u = "http" \/ url.Scheme u = "https" ->
  NewClient_transport u st = (Next (u, true, TransportREST), st).
Proof.
  intros [H | H]; unfold NewClient_transport; now rewrite H.
Qed.

Lemma NewClient_url_return (st st' : State) (r : Result) :
  NewClient_url env d st = (Return r, st') ->
  st' = st /\ exists msg detail,
    r = (None, [diag.mkDiagnostic diag.Error msg detail]).
Proof.
  intros H. destruct (NewClient_url_state env d _ _ _ H) as [-> _].
  split; [reflexivity|].
  destruct (retried_dec env (hosturl d)) as [Hr | (u & Hp & Hh)].
  - rewrite (NewClient_url_retry env d st Hr) in H.
    destruct (url_Parse env ("https://" +:+ hosturl d)) as [err|u];
      [|discriminate].
    injection H as <-. now eexists _, _.
  - rewrite (NewClient_url_direct env d st u Hp Hh) in H. discriminate.
Qed.

Lemma NewClient_tls_return (st st' : State) (r : Result) :
  NewClient_tls env d st = (Return r, st') ->
  exists msg, r = (None, [diag.mkDiagnostic diag.Error msg ""]).
Proof.
  tls_unfold.
  destruct (tls.InsecureSkipVerify (tls.mkConfig (insecure d) None)
            && negb (String.eqb (ca_certificate d) ""));
    [intros [= <- _]; now eexists|].
  destruct (negb (String.eqb (ca_certificate d) "")); [|discriminate].
  destruct (os_Stat env (ca_certificate d));
    [intros [= <- _]; now eexists|].
  destruct (os_ReadFile env (ca_certificate d));
    [intros [= <- _]; now eexists | discriminate].
Qed.

(** What the TLS stage adds to the trace. *)
Lemma NewClient_tls_events (st : State) :
  exists fs,
    snd (NewClient_tls env d st) = logged st fs
    /\ Forall (fun e => e = EvStat (ca_certificate d)
                        \/ e = EvReadFile (ca_certificate d)
                        \/ exists msg, e = EvDebug msg) fs
    /\ (ca_certificate d = "" \/ insecure d = true -> fs = []).
Proof.
  assert (Hst : st = logged st []).
  { destruct st. unfold logged. cbn. now rewrite app_nil_r. }
  tls_unfold. cbn [tls.InsecureSkipVerify].
  destruct (String.eqb_spec (ca_certificate d) "") as [Hca|Hca]; cbn [negb].
  { rewrite andb_false_r. exists []. cbn [snd].
    split; [exact Hst | split; [constructor | auto]]. }
  destruct (insecure d); cbn [andb].
  { exists []. cbn [snd]. split; [exact Hst | split; [constructor | auto]]. }
  destruct (os_Stat env (ca_certificate d)) as [err|];
    cbn [trace RouterOSVersion snd].
  { eexists [_; _]. unfold logged. rewrite <- app_assoc.
    split; [reflexivity|]. split; [|intros [?|?]; [contradiction|discriminate]].
    repeat (constructor 2;
            [first [now left | now (right; left) | right; right; now eexists]|]).
    constructor 1. }
  destruct (os_ReadFile env (ca_certificate d)) as [err|file];
    cbn [trace RouterOSVersion snd].
  - eexists [_; _; _]. unfold logged. rewrite <- !app_assoc.
    split; [reflexivity|]. split; [|intros [?|?]; [contradiction|discriminate]].
    repeat (constructor 2;
            [first [now left | now (right; left) | right; right; now eexists]|]).
    constructor 1.
  - eexists [_; _]. unfold logged. rewrite <- !app_assoc.
    split; [reflexivity|]. split; [|intros [?|?]; [contradiction|discriminate]].
    repeat (constructor 2;
            [first [now left | now (right; left) | right; right; now eexists]|]).
    constructor 1.
Qed.

(** What the probe adds to the trace. *)
Lemma NewClient_probe_events (c : Client) (s : State) :
  exists l,
    trace (snd (NewClient_probe env c s)) = trace s ++ l
    /\ Forall (fun e => is_file_event e = false
                        /\ is_session_event e = false) l
    /\ (RouterOSVersion s <> "" -> l = []).
Proof.
  destruct (NewClient_probe_cases c s) as [Hv | v Hv Hshape | msg Hv];
    cbn [snd trace logged].
  - exists []. rewrite app_nil_r. auto.
  - eexists. split; [reflexivity|]. split; [|contradiction].
    repeat constructor.
  - eexists. split; [reflexivity|]. split; [|contradiction].
    repeat constructor.
Qed.

Lemma after_probe_state (c : Client) (p : Step Result unit * State) :
  snd (after_probe c p) = snd p.
Proof. now destruct p as [[[]|r|msg] s]. Qed.

(** What the constructor adds to the trace once the TLS options are
    accepted. *)
Lemma NewClient_events_after_tls (st st1 : State) (tlsConf : tls.Config) :
  NewClient_tls env d st = (Next tlsConf, st1) ->
  exists l,
    trace (snd (exec (NewClient env d) st)) = trace st1 ++ l
    /\ Forall (fun e => is_file_event e = false) l
    /\ (forall u s',
          NewClient_url env d st1 = (Next u, s') ->
          url.Scheme u = "http" \/ url.Scheme u = "https" ->
          Forall (fun e => is_session_event e = false) l)
    /\ (routeros_version d <> "" ->
        Forall (fun e => is_read_event e = false) l).
Proof.
  intros Ht.
  destruct (NewClient_url env d st1) as [[u|r|msg] s1] eqn:Hu.
  2: { destruct (NewClient_url_return _ _ _ Hu) as [-> _].
       rewrite (NewClient_url_failure env d st st1 st1 tlsConf r Ht Hu).
       exists []. cbn [snd]. rewrite app_nil_r.
       repeat split; auto; discriminate. }
  2: { destruct (NewClient_url_state env d _ _ _ Hu) as [-> _].
       unfold exec, NewClient, bind. rewrite Ht, Hu.
       exists []. cbn [snd]. rewrite app_nil_r.
       repeat split; auto; discriminate. }
  destruct (NewClient_url_state env d _ _ _ Hu) as [-> _].
  assert (Hnote : Forall (fun e => is_file_event e = false
                                   /\ is_session_event e = false
                                   /\ is_read_event e = false)
                    (version_note d)).
  { unfold version_note.
    destruct (negb (String.eqb (routeros_version d) ""));
      repeat constructor. }
  destruct (NewClient_transport_cases u st1)
    as [(u' & useTLS & [|] & Hs & Hrest & Hsame) | (msg & Hs)].
  - (* the binary transport *)
    rewrite (NewClient_api_run st st1 tlsConf u u' useTLS Ht Hu Hs).
    assert (Hnot : ~ (url.Scheme u = "http" \/ url.Scheme u = "https")).
    { intros H. apply Hrest in H. discriminate H. }
    destruct (routeros_Dial env (api_session d tlsConf u' useTLS)).
    + eexists. cbn [snd logged trace configured].
      rewrite <- app_assoc. split; [reflexivity|].
      split; [|split].
      * apply Forall_app. split; [|repeat constructor].
        eapply Forall_impl; [exact Hnote | tauto].
      * intros u0 s' [= <- _] H. contradiction.
      * intros _. apply Forall_app. split; [|repeat constructor].
        eapply Forall_impl; [exact Hnote | tauto].
    + rewrite after_probe_state.
      destruct (NewClient_probe_events
                  (Api (api_client d tlsConf u' useTLS))
                  (logged (configured d st1)
                     [EvDial (api_session d tlsConf u' useTLS); EvAsync]))
        as (l & Hl & Hfile & Hskip).
      rewrite Hl. cbn [logged trace configured]. rewrite <- !app_assoc.
      eexists. split; [reflexivity|]. split; [|split].
      * apply Forall_app. split;
          [eapply Forall_impl; [exact Hnote | tauto]|].
        apply Forall_app. split; [repeat constructor|].
        eapply Forall_impl; [exact Hfile | tauto].
      * intros u0 s' [= <- _] H. contradiction.
      * intros Hv. rewrite (Hskip Hv).
        apply Forall_app. split;
          [eapply Forall_impl; [exact Hnote | tauto]|].
        repeat constructor.
  - (* the REST transport *)
    rewrite (NewClient_rest_run st st1 tlsConf u u' useTLS Ht Hu Hs).
    rewrite after_probe_state.
    destruct (NewClient_probe_events
                (Rest (rest_client env d tlsConf u')) (configured d st1))
      as (l & Hl & Hfile & Hskip).
    rewrite Hl. cbn [configured trace]. rewrite <- !app_assoc.
    eexists. split; [reflexivity|]. split; [|split].
    + apply Forall_app. split;
        [eapply Forall_impl; [exact Hnote | tauto]|].
      eapply Forall_impl; [exact Hfile | tauto].
    + intros _ _ _ _. apply Forall_app. split;
        [eapply Forall_impl; [exact Hnote | tauto]|].
      eapply Forall_impl; [exact Hfile | tauto].
    + intros Hv. rewrite (Hskip Hv), app_nil_r.
      eapply Forall_impl; [exact Hnote | tauto].
  - unfold exec, NewClient, bind. rewrite Ht, Hu, Hs.
    exists []. cbn [snd]. rewrite app_nil_r.
    repeat split; auto.
Qed.


Lemma NewClient_probe_version (c : Client) (s : State) :
  RouterOSVersion s = "" ->
  after_probe c (NewClient_probe env c s)
  = after_version c (exec (GetRouterOSVersion env c) s).
Proof.
  intros Hv. unfold NewClient_probe, bind at 1, get_RouterOSVersion.
  rewrite Hv. change (String.eqb "" "") with true. cbv iota.
  unfold bind at 1, call, exec, after_version, after_probe.
  destruct (GetRouterOSVersion env c s) as [[[v [|dg dgs]]|[v [|dg dgs]]|msg] s'];
    reflexivity.
Qed.

(** X12. The constructor touches the file system only at its start and
    only for the CA path: what it adds to the trace is first events of
    the CA file and then events that have nothing to do with files;
    without a CA path, or with the insecure flag set, there are no file
    events at all. *)
Theorem NewClient_file_events_first (st : State) :
  exists fs l,
    trace (snd (exec (NewClient env d) st)) = trace st ++ fs ++ l
    /\ Forall (fun e => e = EvStat (ca_certificate d)
                        \/ e = EvReadFile (ca_certificate d)
                        \/ exists msg, e = EvDebug msg) fs
    /\ Forall (fun e => is_file_event e = false) l
    /\ (ca_certificate d = "" \/ insecure d = true -> fs = []).
Proof.
  destruct (NewClient_tls_events st) as (fs & Hsnd & Hfs & Hnone).
  exists fs.
  destruct (NewClient_tls env d st) as [[tlsConf|r|msg] st1] eqn:Ht;
    cbn [snd] in Hsnd; subst st1.
  - destruct (NewClient_events_after_tls st _ tlsConf Ht)
      as (l & Hl & Hfile & _).
    exists l. rewrite Hl. cbn [logged trace]. rewrite <- app_assoc.
    now repeat split.
  - exists []. unfold exec, NewClient, bind. rewrite Ht.
    cbn [snd logged trace]. rewrite app_nil_r. now repeat split.
  - exists []. unfold exec, NewClient, bind. rewrite Ht.
    cbn [snd logged trace]. rewrite app_nil_r. now repeat split.
Qed.

(** X13. For a router URL with the scheme [http] or [https] the
    constructor opens no session: after the TLS options it neither
    dials nor switches a session to the asynchronous mode. *)
Theorem NewClient_rest_no_session (st st1 : State) (tlsConf : tls.Config)
        (u : url.URL) :
  NewClient_tls env d st = (Next tlsConf, st1) ->
  NewClient_url env d st1 = (Next u, st1) ->
  url.Scheme u = "http" \/ url.Scheme u = "https" ->
  exists l,
    trace (snd (exec (NewClient env d) st)) = trace st1 ++ l
    /\ Forall (fun e => is_session_event e = false) l.
Proof.
  intros Ht Hu Hs.
  destruct (NewClient_events_after_tls st st1 tlsConf Ht)
    as (l & Hl & _ & Hrest & _).
  exists l. split; [exact Hl | exact (Hrest u st1 Hu Hs)].
Qed.


(** X15. With a version in the configuration, a router URL with the
    scheme [http] or [https] always gives a REST client once the TLS
    options are accepted: the constructor writes one log line, asks
    nothing of the router, and leaves the configured version in
    [RouterOSVersion]. The client has the printed router URL, the
    credentials, the TLS configuration and the timeout of the
    configuration. *)
Theorem NewClient_rest_configured (st st1 : State) (tlsConf : tls.Config)
        (u : url.URL) :
  NewClient_tls env d st = (Next tlsConf, st1) ->
  NewClient_url env d st1 = (Next u, st1) ->
  url.Scheme u = "http" \/ url.Scheme u = "https" ->
  routeros_version d <> "" ->
  exec (NewClient env d) st
  = (Returns (Some (Rest (rest_client env d tlsConf u)), []),
     mkState (routeros_version d)
       (trace st1 ++ [EvMessage INFO ("RouterOS from env: "
                                      +:+ routeros_version d)])).
Proof.
  intros Ht Hu Hs Hv.
  rewrite (NewClient_rest_run st st1 tlsConf u u true Ht Hu
             (NewClient_transport_rest u st1 Hs)).
  assert (Hc : configured d st1
               = mkState (routeros_version d)
                   (trace st1 ++ [EvMessage INFO ("RouterOS from env: "
                                                  +:+ routeros_version d)])).
  { unfold configured, version_note. apply String.eqb_neq in Hv.
    now rewrite Hv. }
  destruct (NewClient_probe_cases (Rest (rest_client env d tlsConf u))
              (configured d st1)) as [_ | v Hv' _ | msg Hv'];
    [now rewrite Hc | contradiction | contradiction].
Qed.

(** X16. When the session cannot be dialled, the constructor returns
    the dial error as its diagnostic and no client; it has taken over
    the configured version into [RouterOSVersion] before, and after the
    failed dial it neither switches to the asynchronous mode nor
    probes. *)
Theorem NewClient_dial_failure (st st1 : State) (tlsConf : tls.Config)
        (u u' : url.URL) (useTLS : bool) (err : error) :
  NewClient_tls env d st = (Next tlsConf, st1) ->
  NewClient_url env d st1 = (Next u, st1) ->
  NewClient_transport u st1 = (Next (u', useTLS, TransportAPI), st1) ->
  routeros_Dial env (api_session d tlsConf u' useTLS) = Some err ->
  exec (NewClient env d) st
  = (Returns (None, diag.FromErr err),
     mkState (routeros_version d)
       (trace st1 ++ version_note d
        ++ [EvDial (api_session d tlsConf u' useTLS)])).
Proof.
  intros Ht Hu Hs Hd.
  rewrite (NewClient_api_run st st1 tlsConf u u' useTLS Ht Hu Hs), Hd.
  unfold logged, configured. cbn [trace RouterOSVersion].
  now rewrite <- app_assoc.
Qed.

(** X17. Without a version in the configuration, what the constructor
    returns for a router URL with the scheme [http] or [https] is
    decided by the version probe of the new REST client: a probed
    version makes the constructor return the client and keep the
    version in [RouterOSVersion]; the diagnostics of a failed probe are
    returned as they are, without a client, and [RouterOSVersion] stays
    empty. *)
Theorem NewClient_rest_probed (st st1 : State) (tlsConf : tls.Config)
        (u : url.URL) :
  NewClient_tls env d st = (Next tlsConf, st1) ->
  NewClient_url env d st1 = (Next u, st1) ->
  url.Scheme u = "http" \/ url.Scheme u = "https" ->
  routeros_version d = "" ->
  exec (NewClient env d) st
  = after_version (Rest (rest_client env d tlsConf u))
      (exec (GetRouterOSVersion env (Rest (rest_client env d tlsConf u)))
         (mkState "" (trace st1))).
Proof.
  intros Ht Hu Hs Hv.
  rewrite (NewClient_rest_run st st1 tlsConf u u true Ht Hu
             (NewClient_transport_rest u st1 Hs)).
  assert (Hc : configured d st1 = mkState "" (trace st1)).
  { unfold configured, version_note. rewrite Hv.
    change (String.eqb "" "") with true. cbn [negb].
    now rewrite app_nil_r. }
  rewrite Hc. now apply NewClient_probe_version.
Qed.

(** X18. Without a version in the configuration, once the session of
    the binary transport is dialled the constructor switches it to the
    asynchronous mode, and what it returns is decided by the version
    probe of the new API client, as for the REST client. *)
Theorem NewClient_api_probed (st st1 : State) (tlsConf : tls.Config)
        (u u' : url.URL) (useTLS : bool) :
  NewClient_tls env d st = (Next tlsConf, st1) ->
  NewClient_url env d st1 = (Next u, st1) ->
  NewClient_transport u st1 = (Next (u', useTLS, TransportAPI), st1) ->
  routeros_Dial env (api_session d tlsConf u' useTLS) = None ->
  routeros_version d = "" ->
  exec (NewClient env d) st
  = after_version (Api (api_client d tlsConf u' useTLS))
      (exec (GetRouterOSVersion env (Api (api_client d tlsConf u' useTLS)))
         (mkState ""
            (trace st1
             ++ [EvDial (api_session d tlsConf u' useTLS); EvAsync]))).
Proof.
  intros Ht Hu Hs Hd Hv.
  rewrite (NewClient_api_run st st1 tlsConf u u' useTLS Ht Hu Hs), Hd.
  assert (Hc : logged (configured d st1)
                 [EvDial (api_session d tlsConf u' useTLS); EvAsync]
               = mkState ""
                   (trace st1
                    ++ [EvDial (api_session d tlsConf u' useTLS); EvAsync])).
  { unfold logged, configured, version_note. rewrite Hv.
    change (String.eqb "" "") with true. cbn [negb trace RouterOSVersion].
    now rewrite app_nil_r. }
  rewrite Hc. now apply NewClient_probe_version.
Qed.


(** *** What the constructor returns *)

Lemma configured_version (st : State) :
  RouterOSVersion (configured d st) = routeros_version d.
Proof. reflexivity. Qed.

Lemma after_probe_returns (c : Client) (s : State) (r : Result) (st' : State) :
  RouterOSVersion s = routeros_version d ->
  after_probe c (NewClient_probe env c s) = (Returns r, st') ->
  (exists msg detail, r = (None, [diag.mkDiagnostic diag.Error msg detail]))
  \/ (r = (Some c, [])
      /\ (routeros_version d <> "" -> RouterOSVersion st' = routeros_version d)
      /\ (routeros_version d = "" -> version_shape (RouterOSVersion st'))).
Proof.
  intros Hs.
  destruct (NewClient_probe_cases c s) as [Hv | v Hv Hshape | msg Hv];
    cbn [after_probe]; intros [= <- <-].
  - right. rewrite Hs in Hv. repeat split; [now rewrite Hs | contradiction].
  - right. rewrite Hs in Hv. repeat split; [contradiction | now cbn].
  - left. now eexists _, _.
Qed.

Lemma NewClient_returns (st : State) (r : Result) (st' : State) :
  exec (NewClient env d) st = (Returns r, st') ->
  (exists msg detail, r = (None, [diag.mkDiagnostic diag.Error msg detail]))
  \/ (exists tlsConf u c,
        r = (Some c, [])
        /\ (c = Rest (rest_client env d tlsConf u)
            \/ exists useTLS, c = Api (api_client d tlsConf u useTLS))
        /\ (routeros_version d <> "" ->
            RouterOSVersion st' = routeros_version d)
        /\ (routeros_version d = "" -> version_shape (RouterOSVersion st'))).
Proof.
  destruct (NewClient_tls env d st) as [[tlsConf|r0|msg] st1] eqn:Ht.
  2: { unfold exec, NewClient, bind. rewrite Ht. intros [= <- _].
       left. destruct (NewClient_tls_return _ _ _ Ht) as [msg ->].
       now eexists _, _. }
  2: { unfold exec, NewClient, bind. rewrite Ht. discriminate. }
  destruct (NewClient_url env d st1) as [[u|r0|msg] s1] eqn:Hu.
  2: { destruct (NewClient_url_return _ _ _ Hu) as [-> (msg & detail & ->)].
       rewrite (NewClient_url_failure env d st st1 st1 tlsConf _ Ht Hu).
       intros [= <- _]. left. now eexists _, _. }
  2: { unfold exec, NewClient, bind. rewrite Ht, Hu. discriminate. }
  destruct (NewClient_url_state env d _ _ _ Hu) as [-> _].
  destruct (NewClient_transport_cases u st1)
    as [(u' & useTLS & [|] & Hs & _) | (msg & Hs)].
  - rewrite (NewClient_api_run st st1 tlsConf u u' useTLS Ht Hu Hs).
    destruct (routeros_Dial env (api_session d tlsConf u' useTLS)).
    + intros [= <- _]. left. now eexists _, _.
    + intros H. apply after_probe_returns in H; [|reflexivity].
      destruct H as [H | (-> & H1 & H2)]; [now left | right].
      exists tlsConf, u', (Api (api_client d tlsConf u' useTLS)).
      repeat split; eauto.
  - rewrite (NewClient_rest_run st st1 tlsConf u u' useTLS Ht Hu Hs).
    intros H. apply after_probe_returns in H; [|reflexivity].
    destruct H as [H | (-> & H1 & H2)]; [now left | right].
    exists tlsConf, u', (Rest (rest_client env d tlsConf u')).
    repeat split; eauto.
  - unfold exec, NewClient, bind. rewrite Ht, Hu, Hs. discriminate.
Qed.

(** X19. Whenever the constructor returns, it returns either a client
    and no diagnostic, or no client and a single diagnostic of error
    severity; never both and never neither. *)
Theorem NewClient_client_or_diagnostic (st : State) (r : Result)
        (st' : State) :
  exec (NewClient env d) st = (Returns r, st') ->
  (exists c, r = (Some c, []))
  \/ (exists msg detail, r = (None, [diag.mkDiagnostic diag.Error msg detail])).
Proof.
  intros H. destruct (NewClient_returns st r st' H)
    as [H' | (tlsConf & u & c & -> & _)]; [now right | left; now exists c].
Qed.

(** X20. A client that the constructor returns has the credentials and
    the flag of the configuration, and the transport that goes with its
    kind; a REST client has an HTTP client with the configured timeout,
    an API client the session dialled for its host. After that
    [RouterOSVersion] is the configured version if there is one, and
    otherwise a probed version of the shape [X.Y] or [X.Y.Z]. *)
Theorem NewClient_returned_client (st : State) (c : Client)
        (diags : diag.Diagnostics) (st' : State) :
  exec (NewClient env d) st = (Returns (Some c, diags), st') ->
  diags = []
  /\ GetExtraParams c = mkExtraParams (suppress_syso_del_warn d)
  /\ match c with
     | Rest r =>
         GetTransport c = TransportREST
         /\ rest_Username r = username d /\ rest_Password r = password d
         /\ exists tlsConf,
              rest_Client r
              = Some (http.mkClient (time.mul (rest_timeout d) time.Second)
                        (http.mkTransport tlsConf))
     | Api a =>
         GetTransport c = TransportAPI
         /\ api_Username a = username d /\ api_Password a = password d
         /\ exists tlsOpt,
              api_Client a
              = Some (mkSession (api_HostURL a) (username d) (password d)
                        tlsOpt)
     end
  /\ (routeros_version d <> "" -> RouterOSVersion st' = routeros_version d)
  /\ (routeros_version d = "" -> version_shape (RouterOSVersion st')).
Proof.
  intros H. destruct (NewClient_returns st _ st' H)
    as [(msg & detail & [=]) | (tlsConf & u & c' & [= -> ->] & Hc & H1 & H2)].
  split; [reflexivity|].
  destruct Hc as [-> | (useTLS & ->)]; cbn.
  - repeat split; eauto.
  - repeat split; eauto.
Qed.

(** X21. The timeout of a returned REST client is the configured
    number of seconds in nanoseconds as a 64-bit integer: it is that
    number times [10^9] exactly when the number of seconds is between
    [-9223372036] and [9223372036], and wraps around otherwise. *)
Theorem NewClient_rest_timeout (st : State) (r : RestClient)
        (diags : diag.Diagnostics) (st' : State) :
  exec (NewClient env d) st = (Returns (Some (Rest r), diags), st') ->
  exists h,
    rest_Client r = Some h
    /\ (- 2 ^ 63 <= http.Timeout h < 2 ^ 63)%Z
    /\ (http.Timeout h = (rest_timeout d * 1000000000)%Z
        <-> (-9223372036 <= rest_timeout d <= 9223372036)%Z).
Proof.
  intros H. destruct (NewClient_returns st _ st' H)
    as [(msg & detail & [=]) | (tlsConf & u & c' & [= <- _] & Hc & _)].
  destruct Hc as [[= ->] | (useTLS & [=])].
  eexists. split; [reflexivity|]. cbn [http.Timeout].
  unfold time.mul, time.wrap_int64, time.Second.
  pose proof (Z.mod_pos_bound (rest_timeout d * 1000000000 + 2 ^ 63) (2 ^ 64)
                ltac:(lia)) as Hb.
  split; [lia|]. split.
  - intros E.
    assert (0 <= rest_timeout d * 1000000000 + 2 ^ 63 < 2 ^ 64)%Z by lia.
    lia.
  - intros Hr. rewrite Z.mod_small by lia. lia.
Qed.

End ConstructorFurther.

Section PreviousVersion.

Variable env : Env.
Variable d : ResourceData.

Lemma NewClient_tls_version (v : string) (tr : list Event) :
  NewClient_tls env d (mkState v tr)
  = (fst (NewClient_tls env d (mkState "" tr)),
     mkState v (trace (snd (NewClient_tls env d (mkState "" tr))))).
Proof.
  tls_unfold.
  destruct (tls.InsecureSkipVerify (tls.mkConfig (insecure d) None)
            && negb (String.eqb (ca_certificate d) ""));
    [reflexivity|].
  destruct (negb (String.eqb (ca_certificate d) "")); [|reflexivity].
  destruct (os_Stat env (ca_certificate d)); [reflexivity|].
  now destruct (os_ReadFile env (ca_certificate d)).
Qed.

(** X22. The constructor does not reuse a version that an earlier
    construction left in [RouterOSVersion]: from two states that differ
    in that variable only, it returns the same, makes the same calls,
    and, once it is past the scheme switch, leaves the same version. *)
Theorem NewClient_forgets_previous_version (v1 v2 : string)
        (tr : list Event) :
  fst (exec (NewClient env d) (mkState v1 tr))
  = fst (exec (NewClient env d) (mkState v2 tr))
  /\ trace (snd (exec (NewClient env d) (mkState v1 tr)))
     = trace (snd (exec (NewClient env d) (mkState v2 tr)))
  /\ (forall c diags st1 st2,
        exec (NewClient env d) (mkState v1 tr) = (Returns (Some c, diags), st1) ->
        exec (NewClient env d) (mkState v2 tr) = (Returns (Some c, diags), st2) ->
        RouterOSVersion st1 = RouterOSVersion st2).
Proof.
  assert (H : exec (NewClient env d) (mkState v1 tr)
              = exec (NewClient env d) (mkState v2 tr)
              \/ exists o tr',
                   exec (NewClient env d) (mkState v1 tr) = (o, mkState v1 tr')
                   /\ exec (NewClient env d) (mkState v2 tr) = (o, mkState v2 tr')
                   /\ forall c diags, o <> Returns (Some c, diags)).
  { pose proof (NewClient_tls_version v1 tr) as H1.
    pose proof (NewClient_tls_version v2 tr) as H2.
    destruct (NewClient_tls env d (mkState "" tr)) as [[tlsConf|r|msg] s0] eqn:H0;
      cbn [fst snd] in H1, H2.
    - assert (Hfs : exists fs, trace s0 = tr ++ fs).
      { destruct (NewClient_tls_events env d (mkState "" tr))
          as (fs & Hsnd & _). rewrite H0 in Hsnd. cbn [snd] in Hsnd.
        exists fs. now rewrite Hsnd. }
      destruct Hfs as [fs Hfs].
      destruct (NewClient_url env d (mkState v1 (trace s0))) as [y s] eqn:Hu.
      destruct (NewClient_url_state env d _ _ _ Hu) as [-> Hall].
      destruct y as [u|r|msg].
      + destruct (NewClient_transport_cases u (mkState v1 (trace s0)))
          as [(u' & useTLS & transport & Hs & _) | (msg & Hs)].
        * left.
          assert (Hs' : forall v,
                    NewClient_transport u (mkState v (trace s0))
                    = (Next (u', useTLS, transport), mkState v (trace s0))).
          { intros v. unfold NewClient_transport in Hs |- *.
            destruct (String.eqb (url.Scheme u) "http");
              [now injection Hs as <- <- <-|].
            destruct (String.eqb (url.Scheme u) "https");
              [now injection Hs as <- <- <-|].
            destruct (String.eqb (url.Scheme u) "apis");
              [now injection Hs as <- <- <-|].
            destruct (String.eqb (url.Scheme u) "api");
              [now injection Hs as <- <- <-|].
            discriminate Hs. }
          destruct transport.
          -- now rewrite
               (NewClient_api_run env d _ _ tlsConf u u' useTLS
                  H1 (Hall _) (Hs' v1)),
               (NewClient_api_run env d _ _ tlsConf u u' useTLS
                  H2 (Hall _) (Hs' v2)).
          -- now rewrite
               (NewClient_rest_run env d _ _ tlsConf u u' useTLS
                  H1 (Hall _) (Hs' v1)),
               (NewClient_rest_run env d _ _ tlsConf u u' useTLS
                  H2 (Hall _) (Hs' v2)).
        * right. exists (Panics msg), (trace s0).
          assert (Hs' : forall v,
                    NewClient_transport u (mkState v (trace s0))
                    = (Panic msg, mkState v (trace s0))).
          { intros v. unfold NewClient_transport in Hs |- *.
            destruct (String.eqb (url.Scheme u) "http"); [discriminate Hs|].
            destruct (String.eqb (url.Scheme u) "https"); [discriminate Hs|].
            destruct (String.eqb (url.Scheme u) "apis"); [discriminate Hs|].
            destruct (String.eqb (url.Scheme u) "api"); [discriminate Hs|].
            now injection Hs as <-. }
          unfold exec, NewClient, bind.
          rewrite H1, H2, !Hall, !Hs'. repeat split; discriminate.
      + right. exists (Returns r), (trace s0).
        destruct (NewClient_url_return env d _ _ _ Hu)
          as (_ & msg & detail & ->).
        unfold exec, NewClient, bind.
        rewrite H1, H2, !Hall. repeat split; discriminate.
      + right. exists (Panics msg), (trace s0).
        unfold exec, NewClient, bind.
        rewrite H1, H2, !Hall. repeat split; discriminate.
    - right. exists (Returns r), (trace s0).
      destruct (NewClient_tls_return env d _ _ _ H0) as (msg & ->).
      unfold exec, NewClient, bind.
      rewrite H1, H2. repeat split; discriminate.
    - right. exists (Panics msg), (trace s0).
      unfold exec, NewClient, bind.
      rewrite H1, H2. repeat split; discriminate. }
  destruct H as [H | (o & tr' & H1 & H2 & Hno)].
  - rewrite H. repeat split. intros c diags st1 st2 E1 E2.
    rewrite E1 in E2. now injection E2 as <-.
  - rewrite H1, H2. repeat split. intros c diags st1 st2 [= E _].
    now destruct (Hno c diags).
Qed.

End PreviousVersion.

(** *** The further statements at work on the sample environment *)

Lemma NewClient_tls_with_ca_witness :
  exists file,
    NewClient_tls sample_env (ca_config sample_ca) initial_state
    = (Next (tls.mkConfig false (Some [file])),
       logged initial_state [EvStat sample_ca; EvReadFile sample_ca]).
Proof.
  eexists.
  apply (NewClient_tls_with_ca sample_env (ca_config sample_ca) initial_state);
    [reflexivity | discriminate | reflexivity | reflexivity].
Defined.

Lemma NewClient_ca_stat_failure_witness :
  exists err,
    exec (NewClient sample_env (ca_config "/nonexistent/ca.pem")) initial_state
    = (Returns (None, diag.FromErr err),
       logged initial_state
         [EvStat "/nonexistent/ca.pem";
          EvDebug ("Failed to read CA file '" +:+ "/nonexistent/ca.pem"
                   +:+ "', error: " +:+ err)]).
Proof.
  eexists.
  apply (NewClient_ca_stat_failure sample_env
           (ca_config "/nonexistent/ca.pem") initial_state);
    [reflexivity | discriminate | reflexivity].
Defined.

Lemma NewClient_ca_read_failure_witness :
  exists err,
    exec (NewClient unreadable_env (ca_config sample_ca)) initial_state
    = (Returns (None,
                diag.Errorf ("Failed to read CA file '" +:+ sample_ca
                             +:+ "', " +:+ err)),
       logged initial_state
         [EvStat sample_ca; EvReadFile sample_ca;
          EvDebug ("Failed to read CA file '" +:+ sample_ca
                   +:+ "', error: " +:+ err)]).
Proof.
  eexists.
  apply (NewClient_ca_read_failure unreadable_env (ca_config sample_ca)
           initial_state);
    [reflexivity | discriminate | reflexivity | reflexivity].
Defined.

Lemma NewClient_rest_no_session_witness :
  exists l,
    trace (snd (exec (NewClient sample_env (sample_config "https://router.lan"))
                  initial_state)) = trace initial_state ++ l
    /\ Forall (fun e => is_session_event e = false) l.
Proof.
  exact (NewClient_rest_no_session sample_env
           (sample_config "https://router.lan")
           initial_state initial_state (tls.mkConfig false None)
           (url.mkURL "https" "" None "router.lan" "" "" false false "" "" "")
           eq_refl eq_refl (or_intror eq_refl)).
Defined.


Lemma NewClient_rest_configured_witness :
  exists c,
    exec (NewClient offline_env (versioned_config "http://router.lan/" "7.15"))
      initial_state
    = (Returns (Some (Rest c), []),
       mkState "7.15" [EvMessage INFO "RouterOS from env: 7.15"])
    /\ rest_HostURL c = "http://router.lan".
Proof.
  eexists. split.
  - apply (NewClient_rest_configured offline_env
             (versioned_config "http://router.lan/" "7.15")
             initial_state initial_state (tls.mkConfig false None)
             (url.mkURL "http" "" None "router.lan" "" "" false false
                "" "" "")
             eq_refl eq_refl (or_introl eq_refl)).
    discriminate.
  - reflexivity.
Defined.

Lemma NewClient_dial_failure_witness :
  exists err s,
    exec (NewClient offline_env (sample_config "apis://router.lan"))
      initial_state
    = (Returns (None, diag.FromErr err), mkState "" [EvDial s])
    /\ address s = "router.lan:8729".
Proof.
  eexists _, _. split.
  - exact (NewClient_dial_failure offline_env
             (sample_config "apis://router.lan")
             initial_state initial_state (tls.mkConfig false None)
             (url.mkURL "apis" "" None "router.lan" "" "" false false
                "" "" "")
             (url.mkURL "" "" None "router.lan:8729" "" "" false false
                "" "" "")
             true _ eq_refl eq_refl eq_refl eq_refl).
  - reflexivity.
Defined.

Lemma NewClient_rest_probed_witness :
  exists c st',
    exec (NewClient sample_env (sample_config "https://router.lan"))
      initial_state
    = after_version c
        (exec (GetRouterOSVersion sample_env c) initial_state)
    /\ exec (NewClient sample_env (sample_config "https://router.lan"))
         initial_state
       = (Returns (Some c, []), st')
    /\ RouterOSVersion st' = "7.1".
Proof.
  eexists _, _. split; [|split].
  - exact (NewClient_rest_probed sample_env
             (sample_config "https://router.lan")
             initial_state initial_state (tls.mkConfig false None)
             (url.mkURL "https" "" None "router.lan" "" "" false false
                "" "" "")
             eq_refl eq_refl (or_intror eq_refl) eq_refl).
  - reflexivity.
  - reflexivity.
Defined.

Lemma NewClient_api_probed_witness :
  exists c st',
    exec (NewClient sample_env (sample_config "api://router.lan:8728"))
      initial_state
    = after_version (Api c)
        (exec (GetRouterOSVersion sample_env (Api c))
           (mkState "" [EvDial (mkSession "router.lan:8728" "admin" "secret"
                                  None);
                        EvAsync]))
    /\ exec (NewClient sample_env (sample_config "api://router.lan:8728"))
         initial_state
       = (Returns (Some (Api c), []), st')
    /\ RouterOSVersion st' = "7.1".
Proof.
  eexists _, _. split; [|split].
  - exact (NewClient_api_probed sample_env
             (sample_config "api://router.lan:8728")
             initial_state initial_state (tls.mkConfig false None)
             (url.mkURL "api" "" None "router.lan:8728" "" "" false false
                "" "" "")
             (url.mkURL "" "" None "router.lan:8728" "" "" false false
                "" "" "")
             false eq_refl eq_refl eq_refl eq_refl eq_refl).
  - reflexivity.
  - reflexivity.
Defined.

Lemma NewClient_client_or_diagnostic_witness :
  exists r st',
    exec (NewClient offline_env (sample_config "https://router.lan"))
      initial_state = (Returns r, st')
    /\ ((exists c, r = (Some c, []))
        \/ (exists msg detail,
              r = (None, [diag.mkDiagnostic diag.Error msg detail]))).
Proof.
  eexists _, _. split; [reflexivity|].
  exact (NewClient_client_or_diagnostic offline_env
           (sample_config "https://router.lan") initial_state _ _ eq_refl).
Defined.

Lemma NewClient_returned_client_witness :
  exists c st',
    exec (NewClient sample_env (sample_config "apis://router.lan"))
      initial_state = (Returns (Some c, []), st')
    /\ GetExtraParams c = mkExtraParams false
    /\ version_shape (RouterOSVersion st').
Proof.
  eexists _, _. split; [reflexivity|].
  destruct (NewClient_returned_client sample_env
              (sample_config "apis://router.lan") initial_state _ _ _ eq_refl)
    as (_ & Hextra & _ & _ & Hshape).
  split; [exact Hextra | exact (Hshape eq_refl)].
Defined.

Lemma NewClient_rest_timeout_witness :
  exists r st' h,
    exec (NewClient sample_env (sample_config "https://router.lan"))
      initial_state = (Returns (Some (Rest r), []), st')
    /\ rest_Client r = Some h
    /\ http.Timeout h = 10000000000%Z.
Proof.
  eexists _, _, _. split; [reflexivity|]. split; [reflexivity|].
  destruct (NewClient_rest_timeout sample_env
              (sample_config "https://router.lan") initial_state _ _ _ eq_refl)
    as (h & Hh & _ & Hexact).
  injection Hh as <-. apply Hexact. cbn. lia.
Defined.
